(** * Conversational search bot: query builder and turn resolver

    A shallow embedding of [src/actions/storage.py] and
    [src/actions/actions.py].  Python values are embedded as a small
    universe [pyval]; dictionaries are insertion-ordered association
    lists; a call that may raise returns a [result]; the dispatcher that
    collects utterances is threaded as explicit state, so that the
    messages sent before an exception are still visible.

    What the two files import from rasa_sdk and elasticsearch is kept
    apart from them: the store client is a record of two functions that
    return or raise, the resolution of a mention and the inherited
    attribute handler are parameters of the action, and the few library
    functions that are written out ([Tracker.get_slot],
    [reset_attribute_slots], the defaults of [KnowledgeBase]) say so. *)

From Stdlib Require Import List String Ascii ZArith Bool Lia.
From Stdlib Require Import DecimalString.
Import ListNotations.
Local Open Scope string_scope.
Local Open Scope Z_scope.

Set Warnings "-register-all".

(* ================================================================== *)
(** ** Python values *)

Inductive pyval : Type :=
| PNone
| PBool (b : bool)
| PInt (z : Z)
| PStr (s : string)
| PList (l : list pyval)
| PDict (d : list (pyval * pyval)).

(** Numbers are integers: the code formats and forwards numbers, it
    never computes with them. *)

Definition dict : Type := list (pyval * pyval).

(** The numeric reading of a value: [bool] is a subclass of [int]. *)
Definition py_num (v : pyval) : option Z :=
  match v with
  | PBool b => Some (if b then 1 else 0)
  | PInt z => Some z
  | _ => None
  end.

(** Python's [==]. Dictionaries compare without regard to order. *)
Fixpoint py_eqb (x y : pyval) {struct x} : bool :=
  match x, y with
  | PNone, PNone => true
  | PBool a, _ =>
      match py_num y with Some n => Z.eqb (if a then 1 else 0) n | None => false end
  | PInt a, _ =>
      match py_num y with Some n => Z.eqb a n | None => false end
  | PStr a, PStr b => String.eqb a b
  | PList xs, PList ys =>
      (fix go (xs ys : list pyval) {struct xs} : bool :=
         match xs, ys with
         | [], [] => true
         | a :: xs', b :: ys' => py_eqb a b && go xs' ys'
         | _, _ => false
         end) xs ys
  | PDict xs, PDict ys =>
      Nat.eqb (List.length xs) (List.length ys) &&
      (fix all (xs : list (pyval * pyval)) {struct xs} : bool :=
         match xs with
         | [] => true
         | (k, v) :: xs' =>
             (fix find (ys : list (pyval * pyval)) : bool :=
                match ys with
                | [] => false
                | (k', v') :: ys' => if py_eqb k k' then py_eqb v v' else find ys'
                end) ys && all xs'
         end) xs
  | _, _ => false
  end.

(** Truth value testing, as done by [if x:] and [not x]. *)
Definition py_truthy (v : pyval) : bool :=
  match v with
  | PNone => false
  | PBool b => b
  | PInt z => negb (Z.eqb z 0)
  | PStr s => negb (String.eqb s EmptyString)
  | PList l => match l with [] => false | _ => true end
  | PDict d => match d with [] => false | _ => true end
  end.

(** [x is not None]. *)
Definition is_not_None (v : pyval) : bool :=
  match v with PNone => false | _ => true end.

(* ------------------------------------------------------------------ *)
(** ** Exceptions and results *)

Inductive exn : Type :=
| KeyError (k : pyval)
| TypeError (msg : string)
| AttributeError (msg : string)
| ValueError (msg : string)
| IndexError (msg : string)
| ElasticsearchException (msg : string).

Inductive result (A : Type) : Type :=
| OK (a : A)
| Raise (e : exn).
Arguments OK {A} a.
Arguments Raise {A} e.

Definition rbind {A B} (r : result A) (k : A -> result B) : result B :=
  match r with
  | OK a => k a
  | Raise e => Raise e
  end.

Declare Scope result_scope.
Delimit Scope result_scope with res.
Notation "x <- r ;; k" := (rbind r (fun x => k))
  (at level 61, r at next level, right associativity) : result_scope.
Local Open Scope result_scope.

(** A list comprehension whose body may raise. *)
Fixpoint mapR {A B} (f : A -> result B) (l : list A) : result (list B) :=
  match l with
  | [] => OK []
  | a :: l' => b <- f a ;; bs <- mapR f l' ;; OK (b :: bs)
  end.

(* ------------------------------------------------------------------ *)
(** ** Dictionaries *)

Fixpoint dict_get (d : dict) (k : pyval) : option pyval :=
  match d with
  | [] => None
  | (k', v) :: d' => if py_eqb k' k then Some v else dict_get d' k
  end.

(** [k in d] *)
Definition dict_mem (d : dict) (k : pyval) : bool :=
  match dict_get d k with Some _ => true | None => false end.

(** [d[k] = v]: an existing key keeps its position. *)
Fixpoint dict_set (d : dict) (k v : pyval) : dict :=
  match d with
  | [] => [(k, v)]
  | (k', v') :: d' =>
      if py_eqb k' k then (k', v) :: d' else (k', v') :: dict_set d' k v
  end.

(** [x[k]] for an arbitrary value [x] and a string key. *)
Definition py_getitem (x : pyval) (k : string) : result pyval :=
  match x with
  | PDict d =>
      match dict_get d (PStr k) with
      | Some v => OK v
      | None => Raise (KeyError (PStr k))
      end
  | PNone => Raise (TypeError "'NoneType' object is not subscriptable")
  | PBool _ => Raise (TypeError "'bool' object is not subscriptable")
  | PInt _ => Raise (TypeError "'int' object is not subscriptable")
  | PStr _ => Raise (TypeError "string indices must be integers")
  | PList _ => Raise (TypeError "list indices must be integers or slices, not str")
  end.

(** [x.get(k)] *)
Definition py_get (x : pyval) (k : string) : result pyval :=
  match x with
  | PDict d =>
      match dict_get d (PStr k) with
      | Some v => OK v
      | None => OK PNone
      end
  | _ => Raise (AttributeError "object has no attribute 'get'")
  end.

(** Only hashable values can be dictionary keys; lists and dictionaries
    are not. *)
Definition py_hashable (k : pyval) : bool :=
  match k with
  | PList _ | PDict _ => false
  | _ => true
  end.

Definition unhashable {A} : result A := Raise (TypeError "unhashable type").

(** Iterating over a value, as a [for] clause does. *)
Definition py_iter (x : pyval) : result (list pyval) :=
  match x with
  | PList l => OK l
  | PDict d => OK (map fst d)
  | PStr s => OK (map (fun c => PStr (String c EmptyString)) (list_ascii_of_string s))
  | _ => Raise (TypeError "object is not iterable")
  end.

Fixpoint assoc {A} (k : string) (l : list (string * A)) : option A :=
  match l with
  | [] => None
  | (k', a) :: l' => if String.eqb k' k then Some a else assoc k l'
  end.

(* ------------------------------------------------------------------ *)
(** ** The builtins [str] and [int]

    The quoting of a string by [repr] and the parsing of a string by
    [int] are left abstract; nothing below depends on their details. *)

Section Builtins.

Variable repr_str : string -> string.
Variable int_of_str : string -> option Z.

Definition str_of_Z (z : Z) : string := NilZero.string_of_int (Z.to_int z).

Fixpoint py_repr (v : pyval) : string :=
  match v with
  | PNone => "None"
  | PBool b => if b then "True" else "False"
  | PInt z => str_of_Z z
  | PStr s => repr_str s
  | PList l =>
      "[" ++ String.concat ", "
               ((fix go (l : list pyval) : list string :=
                   match l with
                   | [] => []
                   | x :: l' => py_repr x :: go l'
                   end) l) ++ "]"
  | PDict d =>
      "{" ++ String.concat ", "
               ((fix go (d : list (pyval * pyval)) : list string :=
                   match d with
                   | [] => []
                   | (k, x) :: d' => (py_repr k ++ ": " ++ py_repr x) :: go d'
                   end) d) ++ "}"
  end.

(** [str(v)], also what an f-string inserts for [{v}]. *)
Definition py_str (v : pyval) : string :=
  match v with
  | PStr s => s
  | _ => py_repr v
  end.

(** [int(v)] *)
Definition py_int (v : pyval) : result Z :=
  match v with
  | PInt z => OK z
  | PBool b => OK (if b then 1 else 0)
  | PStr s =>
      match int_of_str s with
      | Some z => OK z
      | None => Raise (ValueError "invalid literal for int() with base 10")
      end
  | _ => Raise (TypeError "int() argument must be a string or a real number")
  end.

End Builtins.

(* ================================================================== *)
(** ** storage.py: attribute strategies *)

Definition generate_term_query (attribute : string) (value : pyval) : pyval :=
  PDict [(PStr "fuzzy", PDict [(PStr attribute, PDict [(PStr "value", value)])])].

Definition generate_match_query (attribute : string) (value : pyval) : pyval :=
  PDict [(PStr "match", PDict [(PStr attribute, PDict [(PStr "query", value)])])].

Definition generate_match_phrase_query (attribute : string) (value : pyval) : pyval :=
  PDict [(PStr "match_phrase",
          PDict [(PStr attribute, PDict [(PStr "query", value)])])].

(** The role becomes a dictionary key, so it has to be hashable. *)
Definition generate_range_query (attribute : string) (value role : pyval)
  : result pyval :=
  if py_hashable role
  then OK (PDict [(PStr "range", PDict [(PStr attribute, PDict [(role, value)])])])
  else unhashable.

(** The three concrete subclasses of [Attribute]; [TextAttribute] and
    [RangeAttribute] inherit [__init__] and [get_field] from
    [DefaultAttribute]. *)
Inductive Attribute : Type :=
| DefaultAttribute (name : string)
| TextAttribute (name : string)
| RangeAttribute (name : string).

Definition _name (a : Attribute) : string :=
  match a with
  | DefaultAttribute n | TextAttribute n | RangeAttribute n => n
  end.

Definition get_field (a : Attribute) (document : pyval) : result pyval :=
  py_get document (_name a).

Definition generate_query (a : Attribute) (value role : pyval) : result pyval :=
  match a with
  | DefaultAttribute n => OK (generate_match_query n value)
  | TextAttribute n => OK (generate_match_phrase_query n value)
  | RangeAttribute n =>
      if py_eqb role (PStr "eq")
      then OK (generate_match_query n value)
      else generate_range_query n value role
  end.

(* ------------------------------------------------------------------ *)
(** ** storage.py: document types and the knowledge base *)

Record DocumentType : Type := {
  index : string;
  attributes : list (string * Attribute);
  to_string : pyval -> result string
}.

(** The fields of [ElasticsearchKnowledgeBase]: its own [document_types],
    and [key_attribute] and [representation_function], which the base
    class [KnowledgeBase] of rasa_sdk sets up in [super().__init__()]. *)
Record KnowledgeBase : Type := {
  document_types : list (string * DocumentType);
  key_attribute : pyval -> string;
  representation_function : pyval -> pyval -> result pyval
}.

(** [ElasticsearchKnowledgeBase.__init__]: the base class defaults are
    the key attribute ["id"] and the representation [obj["name"]] for
    every object type; the class overrides neither. *)
Definition ElasticsearchKnowledgeBase
    (document_types : list (string * DocumentType)) : KnowledgeBase :=
  {| document_types := document_types;
     key_attribute := fun _ => "id";
     representation_function := fun _ obj => py_getitem obj "name" |}.

(** The store client: [es.search(index, body)] and [es.get(index, id)],
    each of which returns a response or raises. *)
Record Elasticsearch : Type := {
  es_search : string -> pyval -> result pyval;
  es_get : string -> pyval -> result pyval
}.

(** [object_type in self.document_types] *)
Definition kb_contains (kb : KnowledgeBase) (object_type : pyval) : result bool :=
  match object_type with
  | PStr s => OK (match assoc s (document_types kb) with Some _ => true | None => false end)
  | _ => if py_hashable object_type then OK false else unhashable
  end.

(** [self.document_types[object_type]] *)
Definition kb_getitem (kb : KnowledgeBase) (object_type : pyval)
  : result DocumentType :=
  match object_type with
  | PStr s =>
      match assoc s (document_types kb) with
      | Some dt => OK dt
      | None => Raise (KeyError object_type)
      end
  | _ => if py_hashable object_type then Raise (KeyError object_type) else unhashable
  end.

(** [document_type.attributes[name]] *)
Definition attributes_getitem (dt : DocumentType) (name : pyval)
  : result Attribute :=
  match name with
  | PStr s =>
      match assoc s (attributes dt) with
      | Some a => OK a
      | None => Raise (KeyError name)
      end
  | _ => if py_hashable name then Raise (KeyError name) else unhashable
  end.

(** The dictionary comprehension of [to_kb_obj]. *)
Fixpoint extract_fields (attrs : list (string * Attribute)) (source : pyval)
    (acc : dict) : result dict :=
  match attrs with
  | [] => OK acc
  | (name, attribute) :: attrs' =>
      v <- get_field attribute source ;;
      extract_fields attrs' source (dict_set acc (PStr name) v)
  end.

Definition to_kb_obj (kb : KnowledgeBase) (obj object_type : pyval)
  : result pyval :=
  source <- py_getitem obj "_source" ;;
  document_type <- kb_getitem kb object_type ;;
  pretty <- to_string document_type source ;;
  id_ <- py_getitem obj "_id" ;;
  let name := pretty in
  kb_obj <- extract_fields (attributes document_type) source [] ;;
  let kb_obj := dict_set kb_obj (PStr "name") (PStr name) in
  let kb_obj := dict_set kb_obj (PStr "id") id_ in
  OK (PDict kb_obj).

Definition get_attributes_of_object (kb : KnowledgeBase) (object_type : pyval)
  : result (list string) :=
  known <- kb_contains kb object_type ;;
  if negb known then OK []
  else
    document_type <- kb_getitem kb object_type ;;
    OK (map fst (attributes document_type)).

(** The query fragment of one filter, an item of the comprehension in
    [get_objects]. *)
Definition filter_query (document_type : DocumentType) (attribute : pyval)
  : result pyval :=
  name <- py_getitem attribute "name" ;;
  strategy <- attributes_getitem document_type name ;;
  value <- py_getitem attribute "value" ;;
  role <- py_get attribute "role" ;;
  generate_query strategy value role.

Definition search_body (limit : Z) (queries : list pyval) : pyval :=
  PDict [(PStr "size", PInt limit);
         (PStr "query", PDict [(PStr "bool", PDict [(PStr "must", PList queries)])])].

(** [[self.to_kb_obj(hit, object_type) for hit in res['hits']['hits']]] *)
Definition normalize_hits (kb : KnowledgeBase) (object_type res : pyval)
  : result (list pyval) :=
  outer <- py_getitem res "hits" ;;
  inner <- py_getitem outer "hits" ;;
  hits <- py_iter inner ;;
  mapR (fun hit => to_kb_obj kb hit object_type) hits.

Definition get_objects (kb : KnowledgeBase) (es : Elasticsearch)
    (object_type : pyval) (attributes : list pyval) (limit : Z)
  : result (list pyval) :=
  known <- kb_contains kb object_type ;;
  if negb known then OK []
  else
    document_type <- kb_getitem kb object_type ;;
    queries <- mapR (filter_query document_type) attributes ;;
    let query := search_body limit queries in
    res <- es_search es (index document_type) query ;;
    normalize_hits kb object_type res.

Definition default_limit : Z := 5.

Definition get_object (kb : KnowledgeBase) (es : Elasticsearch)
    (object_type object_identifier : pyval) : result pyval :=
  known <- kb_contains kb object_type ;;
  if negb known then OK PNone
  else
    document_type <- kb_getitem kb object_type ;;
    obj <- es_get es (index document_type) object_identifier ;;
    if py_truthy obj then to_kb_obj kb obj object_type else OK PNone.

(* ================================================================== *)
(** ** The tracker, events and the dispatcher *)

Record Tracker : Type := {
  slots : dict;
  latest_message : dict
}.

(** [Tracker.get_slot]: the value of the slot, [None] for a slot that
    does not exist. *)
Definition get_slot (tracker : Tracker) (key : string) : pyval :=
  match dict_get (slots tracker) (PStr key) with
  | Some v => v
  | None => PNone
  end.

Inductive Event : Type :=
| SlotSet (key : string) (value : pyval).

Inductive Message : Type :=
| utter_text (text : string)
| utter_template (template : string).

Definition Dispatcher : Type := list Message.

Definition SLOT_MENTION := "mention".
Definition SLOT_OBJECT_TYPE := "object_type".
Definition SLOT_ATTRIBUTE := "attribute".
Definition SLOT_LISTED_OBJECTS := "knowledge_base_listed_objects".
Definition SLOT_LAST_OBJECT := "knowledge_base_last_object".
Definition SLOT_LAST_OBJECT_TYPE := "knowledge_base_last_object_type".
Definition SLOT_LIMIT := "limit".

(** An action: it may send messages and then return or raise; the
    messages sent before an exception stay in the dispatcher. *)
Definition M (A : Type) : Type := Dispatcher -> Dispatcher * result A.

Definition ret {A} (a : A) : M A := fun d => (d, OK a).

Definition bind {A B} (m : M A) (k : A -> M B) : M B :=
  fun d =>
    match m d with
    | (d', OK a) => k a d'
    | (d', Raise e) => (d', Raise e)
    end.

Definition lift {A} (r : result A) : M A := fun d => (d, r).

Definition utter_message (m : Message) : M unit :=
  fun d => ((d ++ [m])%list, OK tt).

Declare Scope action_scope.
Delimit Scope action_scope with act.
Notation "x <~ m ;; k" := (bind m (fun x => k))
  (at level 61, m at next level, right associativity) : action_scope.
Notation "m ;;; k" := (bind m (fun _ => k))
  (at level 61, right associativity) : action_scope.
Local Open Scope action_scope.

(** A [for] loop whose body acts on the dispatcher. *)
Fixpoint forM_ {A} (l : list A) (body : A -> M unit) : M unit :=
  match l with
  | [] => ret tt
  | a :: l' => body a ;;; forM_ l' body
  end.

(** [enumerate(l, start)] *)
Fixpoint enumerate {A} (start : Z) (l : list A) : list (Z * A) :=
  match l with
  | [] => []
  | a :: l' => (start, a) :: enumerate (start + 1) l'
  end.

(** [a + b] where [b] is known to be a string. *)
Definition py_add_str (a : pyval) (b : string) : result string :=
  match a with
  | PStr s => OK (s ++ b)
  | _ => Raise (TypeError "unsupported operand type(s) for +")
  end.

(** [a + b] where [a] is known to be a string. *)
Definition str_add_py (a : string) (b : pyval) : result string :=
  match b with
  | PStr s => OK (a ++ s)
  | _ => Raise (TypeError "can only concatenate str to str")
  end.

(** ['role' in e] once [e['entity']] has been read. *)
Definition py_has_key (e : pyval) (k : string) : result bool :=
  match e with
  | PDict d => OK (dict_mem d (PStr k))
  | _ => Raise (TypeError "argument is not a container of keys")
  end.

(* ================================================================== *)
(** ** actions.py *)

Definition is_template_char (c : ascii) : bool :=
  (Ascii.eqb c "{" || Ascii.eqb c "}" || Ascii.eqb c "[" || Ascii.eqb c "]")%char.

(** [re.sub] with the character class of the two braces and the two
    square brackets, each occurrence replaced by the empty string. *)
Fixpoint sanitize (text : string) : string :=
  match text with
  | EmptyString => EmptyString
  | String c rest =>
      if is_template_char c then sanitize rest else String c (sanitize rest)
  end.

(** The role of one entity, if it qualifies for the comprehension in
    [get_attribute_slots]. *)
Definition entity_role (attr : string) (attr_val e : pyval)
  : result (option pyval) :=
  entity <- py_getitem e "entity" ;;
  if py_eqb entity (PStr attr) then
    value <- py_getitem e "value" ;;
    if py_eqb value attr_val then
      has_role <- py_has_key e "role" ;;
      if has_role then (r <- py_getitem e "role" ;; OK (Some r)) else OK None
    else OK None
  else OK None.

Fixpoint entity_roles (attr : string) (attr_val : pyval) (entities : list pyval)
  : result (list pyval) :=
  match entities with
  | [] => OK []
  | e :: entities' =>
      r <- entity_role attr attr_val e ;;
      rs <- entity_roles attr attr_val entities' ;;
      OK (match r with Some v => v :: rs | None => rs end)
  end.

(** Iterating over [tracker.latest_message.get("entities", [])]. *)
Definition latest_entities (tracker : Tracker) : result (list pyval) :=
  py_iter (match dict_get (latest_message tracker) (PStr "entities") with
           | Some v => v
           | None => PList []
           end).

Definition attribute_filter (name : string) (value role : pyval) : pyval :=
  PDict [(PStr "name", PStr name); (PStr "value", value); (PStr "role", role)].

Fixpoint get_attribute_slots (tracker : Tracker) (object_attributes : list string)
  : result (list pyval) :=
  match object_attributes with
  | [] => OK []
  | attr :: rest =>
      let attr_val :=
        if dict_mem (slots tracker) (PStr attr) then get_slot tracker attr else PNone in
      if is_not_None attr_val then
        entities <- latest_entities tracker ;;
        role <- entity_roles attr attr_val entities ;;
        let role := match role with r :: _ => r | [] => PNone end in
        attributes <- get_attribute_slots tracker rest ;;
        OK (attribute_filter attr attr_val role :: attributes)
      else get_attribute_slots tracker rest
  end.

(** [reset_attribute_slots] of rasa_sdk, imported by actions.py: one
    [SlotSet(attr, None)] for every attribute whose slot is not [None]. *)
Fixpoint reset_attribute_slots (tracker : Tracker) (object_attributes : list string)
  : list Event :=
  match object_attributes with
  | [] => []
  | attr :: rest =>
      let attr_val :=
        if dict_mem (slots tracker) (PStr attr) then get_slot tracker attr else PNone in
      if is_not_None attr_val
      then SlotSet attr PNone :: reset_attribute_slots tracker rest
      else reset_attribute_slots tracker rest
  end.

Section Actions.

Variable repr_str : string -> string.
Variable int_of_str : string -> option Z.

Let str := py_str repr_str.

(** *** The three document types *)

Definition title_from_year (document : pyval) : result string :=
  title <- py_getitem document "title" ;;
  year <- py_getitem document "publication_year" ;;
  OK (str title ++ " from " ++ str year).

Definition BookDocumentType (index : string) : DocumentType :=
  {| index := index;
     attributes :=
       [("title", TextAttribute "title");
        ("author", TextAttribute "author");
        ("publication_year", RangeAttribute "publication_year");
        ("genres", TextAttribute "genres");
        ("summary", DefaultAttribute "summary")];
     to_string := title_from_year |}.

Definition MovieDocumentType (index : string) : DocumentType :=
  {| index := index;
     attributes :=
       [("title", TextAttribute "title");
        ("publication_year", RangeAttribute "publication_year");
        ("genres", TextAttribute "genres");
        ("summary", DefaultAttribute "summary");
        ("actors", TextAttribute "actors");
        ("director", TextAttribute "director")];
     to_string := title_from_year |}.

Definition RatingDocumentType (index : string) : DocumentType :=
  {| index := index;
     attributes :=
       [("mean_rating", DefaultAttribute "mean_rating");
        ("total_votes", DefaultAttribute "total_votes")];
     to_string := fun document =>
       mean_rating <- py_getitem document "mean_rating" ;;
       total_votes <- py_getitem document "total_votes" ;;
       OK (str mean_rating ++ " out of 10 (" ++ str total_votes ++ " votes)") |}.

(** The registry built by [ActionElasticsearchKnowledgeBase.__init__]. *)
Definition action_document_types : list (string * DocumentType) :=
  [("book", BookDocumentType "book");
   ("movie", MovieDocumentType "movie");
   ("rating", RatingDocumentType "rating")].

Definition action_knowledge_base : KnowledgeBase :=
  ElasticsearchKnowledgeBase action_document_types.

(** *** The action *)

(** [self.knowledge_base] and its store client. *)
Variable kb : KnowledgeBase.
Variable es : Elasticsearch.

(** [get_object_name(tracker, ordinal_mention_mapping,
    use_last_object_mention)] of rasa_sdk: the name the mention resolves
    to, or [None]. *)
Variable get_object_name : Tracker -> result pyval.

(** [_query_attribute], which the action inherits from
    [ActionQueryKnowledgeBase] without overriding it. *)
Variable _query_attribute : pyval -> pyval -> Tracker -> M (list Event).

Definition ask_rephrase : M unit := utter_message (utter_template "utter_ask_rephrase").

(** The text of one filter in [attributes_repr]. *)
Definition filter_repr (attribute : pyval) : result string :=
  name <- py_getitem attribute "name" ;;
  prefix <- py_add_str name ": " ;;
  value <- py_getitem attribute "value" ;;
  str_add_py prefix value.

Definition attributes_repr (attributes : list pyval) : result string :=
  match attributes with
  | [] => OK EmptyString
  | _ =>
      parts <- mapR filter_repr attributes ;;
      OK (" with " ++ String.concat ", " parts)
  end.

Definition utter_objects (object_type : pyval) (objects attributes : list pyval)
  : M unit :=
  attributes_repr <~ lift (attributes_repr attributes) ;;
  match objects with
  | _ :: _ =>
      utter_message (utter_text
        ("I found the following " ++ str object_type ++ "s " ++ attributes_repr ++ ":")) ;;;
      let repr_function := representation_function kb object_type in
      forM_ (enumerate 1 objects) (fun '(i, obj) =>
        shown <~ lift (repr_function obj) ;;
        utter_message (utter_text (str_of_Z i ++ ": " ++ str shown)))
  | [] =>
      utter_message (utter_text
        ("I could not find any " ++ str object_type ++ "s " ++ attributes_repr ++ "."))
  end.

Definition utter_attribute_value (object_name attribute_name attribute_value : pyval)
  : M unit :=
  if py_truthy attribute_value then
    utter_message (utter_text (sanitize (str attribute_value) ++ "."))
  else
    utter_message (utter_text
      ("Did not find a valid value for attribute '" ++ str attribute_name
         ++ "' for object '" ++ str object_name ++ "'.")).

(** The [limit] keyword argument of the call to [get_objects]. *)
Definition limit_argument (tracker : Tracker) : result Z :=
  let limit := get_slot tracker SLOT_LIMIT in
  if py_truthy limit then py_int int_of_str limit else OK default_limit.

Definition listing_slots (object_type last_object : pyval) (listed : list pyval)
  : list Event :=
  [SlotSet SLOT_OBJECT_TYPE object_type;
   SlotSet SLOT_MENTION PNone;
   SlotSet SLOT_ATTRIBUTE PNone;
   SlotSet SLOT_LAST_OBJECT last_object;
   SlotSet SLOT_LAST_OBJECT_TYPE object_type;
   SlotSet SLOT_LISTED_OBJECTS (PList listed);
   SlotSet SLOT_LIMIT PNone].

Definition _query_objects (object_type : pyval) (tracker : Tracker)
  : M (list Event) :=
  object_attributes <~ lift (get_attributes_of_object kb object_type) ;;
  attributes <~ lift (get_attribute_slots tracker object_attributes) ;;
  limit <~ lift (limit_argument tracker) ;;
  objects <~ lift (get_objects kb es object_type attributes limit) ;;
  utter_objects object_type objects attributes ;;;
  match objects with
  | [] => ret (reset_attribute_slots tracker object_attributes)
  | first :: others =>
      let key_attribute := key_attribute kb object_type in
      last_object <~ lift (match others with
                           | _ :: _ => OK PNone
                           | [] => py_getitem first key_attribute
                           end) ;;
      listed <~ lift (mapR (fun e => py_getitem e key_attribute) objects) ;;
      ret (listing_slots object_type last_object listed
             ++ reset_attribute_slots tracker object_attributes)%list
  end.

Definition join_slots (last_object_type object_name : pyval) : list Event :=
  [SlotSet SLOT_OBJECT_TYPE last_object_type;
   SlotSet SLOT_MENTION PNone;
   SlotSet SLOT_ATTRIBUTE PNone;
   SlotSet SLOT_LAST_OBJECT object_name;
   SlotSet SLOT_LAST_OBJECT_TYPE last_object_type;
   SlotSet SLOT_LIMIT PNone].

Definition join_text (obj_repr : string) (object_type last_object_type : pyval)
    (last_obj_repr : string) : string :=
  obj_repr ++ " is the " ++ str object_type ++ " for " ++ str last_object_type
    ++ " " ++ last_obj_repr ++ ".".

Definition _query_join_objects (object_type last_object_type : pyval)
    (tracker : Tracker) : M (list Event) :=
  object_attributes <~ lift (get_attributes_of_object kb object_type) ;;
  object_name <~ lift (get_object_name tracker) ;;
  last_object <~ lift (get_object kb es last_object_type object_name) ;;
  if negb (py_truthy object_name) || negb (py_truthy object_type)
     || negb (py_truthy last_object)
  then
    ask_rephrase ;;;
    ret [SlotSet SLOT_MENTION PNone]
  else
    object_of_interest <~ lift (get_object kb es object_type object_name) ;;
    obj_repr <~ lift (dt <- kb_getitem kb object_type ;;
                      to_string dt object_of_interest) ;;
    last_obj_repr <~ lift (dt <- kb_getitem kb last_object_type ;;
                           to_string dt last_object) ;;
    utter_message (utter_text
      (join_text obj_repr object_type last_object_type last_obj_repr)) ;;;
    ret (join_slots last_object_type object_name).

(** The branching of [run], for any four continuations. *)
Definition run_with {A} (rephrase : A) (join : pyval -> pyval -> A)
    (listing : pyval -> A) (attribute_lookup : pyval -> pyval -> A)
    (tracker : Tracker) : A :=
  let object_type := get_slot tracker SLOT_OBJECT_TYPE in
  let last_object_type := get_slot tracker SLOT_LAST_OBJECT_TYPE in
  let attribute := get_slot tracker SLOT_ATTRIBUTE in
  let has_mention := is_not_None (get_slot tracker SLOT_MENTION) in
  let new_request := negb (py_eqb object_type last_object_type) in
  if negb (py_truthy object_type) then rephrase
  else if py_truthy last_object_type && new_request && has_mention
  then join object_type last_object_type
  else if negb (py_truthy attribute) then listing object_type
  else if py_truthy attribute then attribute_lookup object_type attribute
  else rephrase.

Definition run (tracker : Tracker) : M (list Event) :=
  run_with
    (ask_rephrase ;;; ret [])
    (fun object_type last_object_type =>
       _query_join_objects object_type last_object_type tracker)
    (fun object_type => _query_objects object_type tracker)
    (fun object_type attribute => _query_attribute object_type attribute tracker)
    tracker.

End Actions.

(** The mode a turn is resolved in. *)
Inductive Mode : Type :=
| Rephrase
| JoinMode
| ListingMode
| AttributeMode.

Definition select_mode (tracker : Tracker) : Mode :=
  run_with Rephrase (fun _ _ => JoinMode) (fun _ => ListingMode)
    (fun _ _ => AttributeMode) tracker.

(** How [run] dispatches on the selected mode. *)
Definition dispatch {A} (rephrase : A) (join : pyval -> pyval -> A)
    (listing : pyval -> A) (attribute_lookup : pyval -> pyval -> A)
    (tracker : Tracker) (mode : Mode) : A :=
  match mode with
  | Rephrase => rephrase
  | JoinMode =>
      join (get_slot tracker SLOT_OBJECT_TYPE) (get_slot tracker SLOT_LAST_OBJECT_TYPE)
  | ListingMode => listing (get_slot tracker SLOT_OBJECT_TYPE)
  | AttributeMode =>
      attribute_lookup (get_slot tracker SLOT_OBJECT_TYPE) (get_slot tracker SLOT_ATTRIBUTE)
  end.

(** The three preconditions of join mode, as [run] tests them: the
    last-object-type slot holds a non-empty value, the current object
    type is not equal to it, and the mention slot is not [None]. *)
Definition last_type_set (tracker : Tracker) : bool :=
  py_truthy (get_slot tracker SLOT_LAST_OBJECT_TYPE).

Definition type_changed (tracker : Tracker) : bool :=
  negb (py_eqb (get_slot tracker SLOT_OBJECT_TYPE)
               (get_slot tracker SLOT_LAST_OBJECT_TYPE)).

Definition mention_set (tracker : Tracker) : bool :=
  is_not_None (get_slot tracker SLOT_MENTION).

Definition object_type_set (tracker : Tracker) : bool :=
  py_truthy (get_slot tracker SLOT_OBJECT_TYPE).

Definition attribute_set (tracker : Tracker) : bool :=
  py_truthy (get_slot tracker SLOT_ATTRIBUTE).

(** A tracker given by its slots and the entities of the latest message. *)
Definition tracker_of (slots : list (string * pyval)) (entities : list pyval)
  : Tracker :=
  {| slots := map (fun kv => (PStr (fst kv), snd kv)) slots;
     latest_message := [(PStr "entities", PList entities)] |}.


(* ================================================================== *)
(** ** Concrete trackers, documents and stores *)

(** A dictionary literal with string keys. *)
Definition obj_of (fields : list (string * pyval)) : pyval :=
  PDict (map (fun kv => (PStr (fst kv), snd kv)) fields).

(** [repr] on a string without quotes, backslashes or control
    characters. *)
Definition quote_repr (s : string) : string := "'" ++ s ++ "'".

(** [int] on a plain decimal literal. *)
Definition decimal_literal (s : string) : option Z :=
  option_map Z.of_int (NilZero.int_of_string s).

(** A mention that resolves to a fixed name. *)
Definition resolves_to (name : pyval) : Tracker -> result pyval :=
  fun _ => OK name.

(** A stand-in for the inherited attribute handler in turns that are
    not resolved in attribute mode. *)
Definition idle_attribute_handler : pyval -> pyval -> Tracker -> M (list Event) :=
  fun _ _ _ => ret [].

(** The response of [es.search] carrying the given hits. *)
Definition search_response (hits : list pyval) : pyval :=
  obj_of [("hits", obj_of [("hits", PList hits)])].

Fixpoint find_document (docs : list (string * string * pyval)) (index id : string)
  : pyval :=
  match docs with
  | [] => PNone
  | (i, k, doc) :: docs' =>
      if String.eqb i index && String.eqb k id then doc else find_document docs' index id
  end.

(** A store that answers every search with the same hits and a lookup
    with the stored document, or with [None] when there is none. *)
Definition store_with (hits : list pyval) (docs : list (string * string * pyval))
  : Elasticsearch :=
  {| es_search := fun _ _ => OK (search_response hits);
     es_get := fun index id =>
       match id with
       | PStr k => OK (find_document docs index k)
       | _ => OK PNone
       end |}.

(** A store that answers a lookup as the client of elasticsearch-py
    does: with the stored document, with [NotFoundError] when no
    document is stored under the identifier, and with [ValueError] when
    the identifier is empty. *)
Definition client_store (hits : list pyval) (docs : list (string * string * pyval))
  : Elasticsearch :=
  {| es_search := fun _ _ => OK (search_response hits);
     es_get := fun index id =>
       match id with
       | PNone | PStr EmptyString =>
           Raise (ValueError "Empty value passed for a required argument.")
       | PStr k =>
           match find_document docs index k with
           | PNone => Raise (ElasticsearchException "NotFoundError")
           | doc => OK doc
           end
       | _ => Raise (ElasticsearchException "NotFoundError")
       end |}.

(** A store every call to which fails. *)
Definition unavailable_store : Elasticsearch :=
  {| es_search := fun _ _ => Raise (ElasticsearchException "ConnectionError");
     es_get := fun _ _ => Raise (ElasticsearchException "ConnectionError") |}.

Definition matrix_movie : pyval :=
  obj_of [("_index", PStr "movie"); ("_id", PStr "tt0133093");
          ("_source", obj_of [("title", PStr "The Matrix");
                              ("publication_year", PInt 1999);
                              ("genres", PList [PStr "Action"; PStr "Sci-Fi"]);
                              ("director", PStr "Lana Wachowski")])].

Definition matrix_rating : pyval :=
  obj_of [("_index", PStr "rating"); ("_id", PStr "tt0133093");
          ("_source", obj_of [("mean_rating", PInt 9);
                              ("total_votes", PInt 1900000)])].

Definition inception_movie : pyval :=
  obj_of [("_index", PStr "movie"); ("_id", PStr "tt1375666");
          ("_source", obj_of [("title", PStr "Inception");
                              ("publication_year", PInt 2010)])].

Definition bracket_book : pyval :=
  obj_of [("_index", PStr "book"); ("_id", PStr "b42");
          ("_source", obj_of [("title", PStr "Sci-Fi [2020]");
                              ("publication_year", PInt 2020)])].

(** "What's the rating for that?" after movies were listed. *)
Definition rating_for_that : Tracker :=
  tracker_of [("object_type", PStr "rating");
              ("knowledge_base_last_object_type", PStr "movie");
              ("mention", PStr "1");
              ("knowledge_base_listed_objects", PList [PStr "tt0133093"])] [].

(** A mention of a listed movie in a turn that carries no object
    type. *)
Definition mention_without_type : Tracker :=
  tracker_of [("object_type", PNone);
              ("knowledge_base_last_object_type", PStr "movie");
              ("mention", PStr "1");
              ("knowledge_base_listed_objects", PList [PStr "tt0133093"])] [].

(** "What movies do you know?" *)
Definition list_movies : Tracker :=
  tracker_of [("object_type", PStr "movie")] [].

(** "What books do you know?" *)
Definition list_books : Tracker :=
  tracker_of [("object_type", PStr "book")] [].

(** "Movies from 1999", the year tagged as an entity without a role. *)
Definition movies_of_1999 : Tracker :=
  tracker_of [("object_type", PStr "movie"); ("publication_year", PStr "1999")]
    [obj_of [("entity", PStr "publication_year"); ("value", PStr "1999")]].

(** The shape of a range fragment. *)
Definition range_fragment (attribute : string) (value role : pyval) : pyval :=
  PDict [(PStr "range", PDict [(PStr attribute, PDict [(role, value)])])].

(** What [to_kb_obj] promises about a normalized object of a type: the
    reserved keys and one entry for every declared attribute. *)
Definition normalized (kb : KnowledgeBase) (object_type : string) (o : pyval) : Prop :=
  exists d dt,
    o = PDict d
    /\ assoc object_type (document_types kb) = Some dt
    /\ dict_mem d (PStr "name") = true
    /\ dict_mem d (PStr "id") = true
    /\ forall a, In a (map fst (attributes dt)) -> dict_mem d (PStr a) = true.

(** A raw hit that the document type can render. *)
Definition renderable (dt : DocumentType) (hit : pyval) : Prop :=
  exists fields id pretty,
    py_getitem hit "_source" = OK (PDict fields)
    /\ py_getitem hit "_id" = OK id
    /\ to_string dt (PDict fields) = OK pretty.

(** A state delta that swaps the two type slots: the current type slot
    receives the previous type and the previous type slot the current
    one. *)
Definition swaps_type_roles (tracker : Tracker) (events : list Event) : Prop :=
  In (SlotSet SLOT_OBJECT_TYPE (get_slot tracker SLOT_LAST_OBJECT_TYPE)) events
  /\ In (SlotSet SLOT_LAST_OBJECT_TYPE (get_slot tracker SLOT_OBJECT_TYPE)) events.


Fixpoint has_template_char (text : string) : bool :=
  match text with
  | EmptyString => false
  | String c rest => is_template_char c || has_template_char rest
  end.

(** No text sent to the user contains one of [{ } [ ]]. *)
Definition all_sanitized (d : Dispatcher) : bool :=
  forallb (fun m => match m with
                    | utter_text text => negb (has_template_char text)
                    | utter_template _ => true
                    end) d.

(** The stores of the scenarios. *)
Definition one_movie_store : Elasticsearch :=
  store_with [matrix_movie] [("movie", "tt0133093", matrix_movie)].

Definition two_movies_store : Elasticsearch :=
  store_with [matrix_movie; inception_movie] [].

Definition movie_and_rating_store : Elasticsearch :=
  store_with [] [("movie", "tt0133093", matrix_movie);
                 ("rating", "tt0133093", matrix_rating)].

Definition bracket_book_store : Elasticsearch :=
  store_with [bracket_book] [].

(* ================================================================== *)
(** ** Notions used to state further properties *)

(** The value [get_attribute_slots] and [reset_attribute_slots] read for
    an attribute: that of its slot, [None] without such a slot. *)
Definition slot_value (tracker : Tracker) (attr : string) : pyval :=
  if dict_mem (slots tracker) (PStr attr) then get_slot tracker attr else PNone.

(** The attributes whose slot holds a value. *)
Definition set_attributes (tracker : Tracker) (attrs : list string) : list string :=
  filter (fun attr => is_not_None (slot_value tracker attr)) attrs.

(** An entity as the language understanding delivers it: a dictionary
    with at least the keys [entity] and [value]. *)
Definition well_formed_entity (e : pyval) : bool :=
  match e with
  | PDict d => dict_mem d (PStr "entity") && dict_mem d (PStr "value")
  | _ => false
  end.

Definition is_str (v : pyval) : bool :=
  match v with PStr _ => true | _ => false end.

(** The line of the enumeration for the [i]-th object, named [name]. *)
Definition enumeration_line (repr_str : string -> string) (i : Z) (name : pyval)
  : Message :=
  utter_text (str_of_Z i ++ ": " ++ py_str repr_str name).

(** The hits of a search response. *)
Definition response_hits (res : pyval) : result (list pyval) :=
  outer <- py_getitem res "hits" ;;
  inner <- py_getitem outer "hits" ;;
  py_iter inner.

(** What [_query_objects] does once the query has returned its objects:
    the utterances and the state delta. *)
Definition after_query (repr_str : string -> string) (kb : KnowledgeBase)
    (object_type : pyval) (tracker : Tracker) (object_attributes : list string)
    (attributes objects : list pyval) : M (list Event) :=
  (utter_objects repr_str kb object_type objects attributes ;;;
   match objects with
   | [] => ret (reset_attribute_slots tracker object_attributes)
   | first :: others =>
       let key_attribute := key_attribute kb object_type in
       last_object <~ lift (match others with
                            | _ :: _ => OK PNone
                            | [] => py_getitem first key_attribute
                            end) ;;
       listed <~ lift (mapR (fun e => py_getitem e key_attribute) objects) ;;
       ret (listing_slots object_type last_object listed
              ++ reset_attribute_slots tracker object_attributes)%list
   end)%act.

(* ================================================================== *)
(** * Properties *)

(** ** Values and dictionaries *)

Lemma py_eqb_str (a b : string) : py_eqb (PStr a) (PStr b) = String.eqb a b.
Proof. reflexivity. Qed.

Lemma py_eqb_str_refl (a : string) : py_eqb (PStr a) (PStr a) = true.
Proof. simpl. apply String.eqb_refl. Qed.

Lemma py_eqb_str_inv (a : string) (y : pyval) :
  py_eqb (PStr a) y = true -> y = PStr a.
Proof.
  destruct y; simpl; try discriminate.
  intros H. apply String.eqb_eq in H. now subst.
Qed.

Lemma dict_get_set_same (d : dict) (k : string) (v : pyval) :
  dict_get (dict_set d (PStr k) v) (PStr k) = Some v.
Proof.
  induction d as [|[k' v'] d IH]; simpl.
  - now rewrite String.eqb_refl.
  - destruct (py_eqb k' (PStr k)) eqn:E; simpl; rewrite E; auto.
Qed.

Lemma dict_get_set_other (d : dict) (k k' : string) (v : pyval) :
  k <> k' ->
  dict_get (dict_set d (PStr k) v) (PStr k') = dict_get d (PStr k').
Proof.
  intros Hne. induction d as [|[k0 v0] d IH]; simpl.
  - destruct (String.eqb k k') eqn:E; auto.
    apply String.eqb_eq in E. contradiction.
  - destruct (py_eqb k0 (PStr k)) eqn:E; simpl.
    + destruct (py_eqb k0 (PStr k')) eqn:E'; auto.
      destruct k0; simpl in E, E'; try discriminate.
      apply String.eqb_eq in E, E'. congruence.
    + now rewrite IH.
Qed.

Lemma dict_mem_set_preserved (d : dict) (k k' : string) (v : pyval) :
  dict_mem d (PStr k') = true -> dict_mem (dict_set d (PStr k) v) (PStr k') = true.
Proof.
  unfold dict_mem. destruct (String.eqb k k') eqn:E.
  - apply String.eqb_eq in E. subst. now rewrite dict_get_set_same.
  - apply String.eqb_neq in E. now rewrite dict_get_set_other.
Qed.

(** ** The turn resolver: mode selection *)

Section ModeSelection.

Variable A : Type.
Variables (rephrase : A) (join : pyval -> pyval -> A) (listing : pyval -> A)
          (attribute_lookup : pyval -> pyval -> A).

Lemma run_with_select_mode (tracker : Tracker) :
  run_with rephrase join listing attribute_lookup tracker
  = dispatch rephrase join listing attribute_lookup tracker (select_mode tracker).
Proof.
  unfold select_mode, run_with, dispatch.
  destruct (py_truthy (get_slot tracker SLOT_OBJECT_TYPE)); simpl; auto.
  destruct (py_truthy (get_slot tracker SLOT_LAST_OBJECT_TYPE)
            && negb (py_eqb (get_slot tracker SLOT_OBJECT_TYPE)
                            (get_slot tracker SLOT_LAST_OBJECT_TYPE))
            && is_not_None (get_slot tracker SLOT_MENTION)); auto.
  destruct (py_truthy (get_slot tracker SLOT_ATTRIBUTE)); reflexivity.
Qed.

End ModeSelection.

Lemma select_mode_cases (tracker : Tracker) :
  select_mode tracker =
    if negb (object_type_set tracker) then Rephrase
    else if last_type_set tracker && type_changed tracker && mention_set tracker
         then JoinMode
         else if attribute_set tracker then AttributeMode else ListingMode.
Proof.
  unfold select_mode, run_with, object_type_set, last_type_set, type_changed,
    mention_set, attribute_set.
  destruct (py_truthy (get_slot tracker SLOT_OBJECT_TYPE)); simpl; auto.
  destruct (py_truthy (get_slot tracker SLOT_LAST_OBJECT_TYPE)
            && negb (py_eqb (get_slot tracker SLOT_OBJECT_TYPE)
                            (get_slot tracker SLOT_LAST_OBJECT_TYPE))
            && is_not_None (get_slot tracker SLOT_MENTION)); auto.
  destruct (py_truthy (get_slot tracker SLOT_ATTRIBUTE)); reflexivity.
Qed.

(** C1, as the code has it.  Join mode is selected exactly when the
    current object type is set and the three preconditions hold: the
    last-object-type slot is set, the current object type differs from
    it and the mention flag is set.  When the current object type is set
    and one of the three fails, the turn is resolved in listing mode if
    no attribute slot is set and in attribute mode if one is; when the
    current object type is not set, the turn asks to rephrase whatever
    the three preconditions are.  [run] then executes the handler of the
    selected mode.  A type slot counts as set when it holds a non-empty
    value, the mention flag when it is not [None], which is how [run]
    reads them. *)
Theorem join_mode_iff_type_set_and_preconditions
    (repr_str : string -> string) (int_of_str : string -> option Z)
    (kb : KnowledgeBase) (es : Elasticsearch)
    (get_object_name : Tracker -> result pyval)
    (_query_attribute : pyval -> pyval -> Tracker -> M (list Event))
    (tracker : Tracker) :
  (select_mode tracker = JoinMode <->
     object_type_set tracker = true /\ last_type_set tracker = true
     /\ type_changed tracker = true /\ mention_set tracker = true)
  /\ (object_type_set tracker = true -> select_mode tracker <> JoinMode ->
        (attribute_set tracker = false -> select_mode tracker = ListingMode)
        /\ (attribute_set tracker = true -> select_mode tracker = AttributeMode))
  /\ (object_type_set tracker = false -> select_mode tracker = Rephrase)
  /\ run repr_str int_of_str kb es get_object_name _query_attribute tracker
     = match select_mode tracker with
       | Rephrase => ask_rephrase ;;; ret []
       | JoinMode =>
           _query_join_objects repr_str kb es get_object_name
             (get_slot tracker SLOT_OBJECT_TYPE)
             (get_slot tracker SLOT_LAST_OBJECT_TYPE) tracker
       | ListingMode =>
           _query_objects repr_str int_of_str kb es
             (get_slot tracker SLOT_OBJECT_TYPE) tracker
       | AttributeMode =>
           _query_attribute (get_slot tracker SLOT_OBJECT_TYPE)
             (get_slot tracker SLOT_ATTRIBUTE) tracker
       end.
Proof.
  split; [|split; [|split]].
  - rewrite select_mode_cases.
    destruct (object_type_set tracker), (last_type_set tracker),
      (type_changed tracker), (mention_set tracker), (attribute_set tracker);
      simpl; split; try discriminate; try tauto;
      intros (H1 & H2 & H3 & H4); discriminate.
  - intros Hset Hnot. rewrite select_mode_cases, Hset in Hnot |- *. simpl in *.
    destruct (last_type_set tracker && type_changed tracker && mention_set tracker);
      [contradiction|].
    split; intros ->; reflexivity.
  - intros Hunset. now rewrite select_mode_cases, Hunset.
  - unfold run. rewrite run_with_select_mode. unfold dispatch.
    destruct (select_mode tracker); reflexivity.
Qed.

(** A turn in join mode, and the same slots without the mention. *)
Lemma join_mode_iff_type_set_and_preconditions_witness :
  select_mode rating_for_that = JoinMode
  /\ select_mode (tracker_of [("object_type", PStr "rating");
                              ("knowledge_base_last_object_type", PStr "movie")] [])
     = ListingMode.
Proof.
  split.
  - apply (proj1 (join_mode_iff_type_set_and_preconditions quote_repr decimal_literal
                    (action_knowledge_base quote_repr) unavailable_store
                    (resolves_to PNone) idle_attribute_handler rating_for_that)).
    repeat split; reflexivity.
  - apply (proj1 (proj2 (join_mode_iff_type_set_and_preconditions quote_repr
                           decimal_literal (action_knowledge_base quote_repr)
                           unavailable_store (resolves_to PNone)
                           idle_attribute_handler
                           (tracker_of [("object_type", PStr "rating");
                                        ("knowledge_base_last_object_type",
                                         PStr "movie")] []))));
      [reflexivity | discriminate | reflexivity].
Defined.

(** C1, as the claim has it, fails: in a turn without a current object
    type the three preconditions hold, the previous type being set, the
    current one differing from it and a mention being present, and yet
    the turn is not resolved in join mode: it asks to rephrase. *)
Lemma join_preconditions_do_not_suffice :
  last_type_set mention_without_type = true
  /\ type_changed mention_without_type = true
  /\ mention_set mention_without_type = true
  /\ select_mode mention_without_type = Rephrase
  /\ ~ (select_mode mention_without_type = JoinMode <->
          last_type_set mention_without_type = true
          /\ type_changed mention_without_type = true
          /\ mention_set mention_without_type = true)
  /\ run quote_repr decimal_literal (action_knowledge_base quote_repr)
       movie_and_rating_store (resolves_to (PStr "tt0133093"))
       idle_attribute_handler mention_without_type []
     = ([utter_template "utter_ask_rephrase"], OK []).
Proof.
  repeat split; try reflexivity.
  intros [_ H]. discriminate H. repeat split; reflexivity.
Qed.

(** ** Attribute strategies *)

(** C4. For every attribute name, every value and every role, the
    range strategy answers the role ["eq"] with the plain-match fragment
    [{"match": {name: {"query": value}}}] and any other role with the
    range fragment [{"range": {name: {role: value}}}], whose operator
    key is that very role.  A role is any value that can be a dictionary
    key: a string, also the empty one, [None], a number or a truth
    value. *)
Theorem range_generate_query_by_role (name : string) (value role : pyval) :
  py_hashable role = true ->
  (role = PStr "eq" ->
     generate_query (RangeAttribute name) value role
     = OK (PDict [(PStr "match",
                   PDict [(PStr name, PDict [(PStr "query", value)])])]))
  /\ (role <> PStr "eq" ->
        generate_query (RangeAttribute name) value role
        = OK (PDict [(PStr "range",
                      PDict [(PStr name, PDict [(role, value)])])])).
Proof.
  intros Hkey. split; intros H; unfold generate_query.
  - subst. reflexivity.
  - destruct (py_eqb role (PStr "eq")) eqn:E.
    + destruct role; simpl in E; try discriminate.
      apply String.eqb_eq in E. subst. contradiction.
    + unfold generate_range_query. now rewrite Hkey.
Qed.

Lemma range_generate_query_by_role_witness :
  generate_query (RangeAttribute "publication_year") (PStr "1999") (PStr "eq")
  = OK (PDict [(PStr "match",
                PDict [(PStr "publication_year",
                        PDict [(PStr "query", PStr "1999")])])])
  /\ generate_query (RangeAttribute "publication_year") (PStr "1999") (PStr "gt")
     = OK (PDict [(PStr "range",
                   PDict [(PStr "publication_year",
                           PDict [(PStr "gt", PStr "1999")])])])
  /\ generate_query (RangeAttribute "publication_year") (PStr "1999") PNone
     = OK (PDict [(PStr "range",
                   PDict [(PStr "publication_year",
                           PDict [(PNone, PStr "1999")])])]).
Proof.
  split; [|split].
  - apply (proj1 (range_generate_query_by_role "publication_year" (PStr "1999")
                    (PStr "eq") eq_refl)).
    reflexivity.
  - apply (proj2 (range_generate_query_by_role "publication_year" (PStr "1999")
                    (PStr "gt") eq_refl)).
    discriminate.
  - apply (proj2 (range_generate_query_by_role "publication_year" (PStr "1999")
                    PNone eq_refl)).
    discriminate.
Defined.

(** C10. A filter on a range attribute whose slot is set while no
    entity of the latest message yields a role is built with role
    [None], and its query fragment is the range fragment keyed by
    [None], not the plain-match fragment. *)
Theorem null_role_yields_range_fragment
    (dt : DocumentType) (tracker : Tracker) (attr name : string)
    (value : pyval) (entities : list pyval) :
  assoc attr (attributes dt) = Some (RangeAttribute name) ->
  dict_get (slots tracker) (PStr attr) = Some value ->
  is_not_None value = true ->
  latest_entities tracker = OK entities ->
  entity_roles attr value entities = OK [] ->
  get_attribute_slots tracker [attr] = OK [attribute_filter attr value PNone]
  /\ filter_query dt (attribute_filter attr value PNone)
     = OK (PDict [(PStr "range", PDict [(PStr name, PDict [(PNone, value)])])])
  /\ filter_query dt (attribute_filter attr value PNone)
     <> OK (generate_match_query name value)
  /\ forall kb es object_type limit,
       assoc object_type (document_types kb) = Some dt ->
       get_objects kb es (PStr object_type) [attribute_filter attr value PNone] limit
       = (res <- es_search es (index dt)
                   (search_body limit
                      [PDict [(PStr "range",
                               PDict [(PStr name, PDict [(PNone, value)])])]]) ;;
          normalize_hits kb (PStr object_type) res).
Proof.
  intros Hattr Hslot Hval Hent Hroles.
  assert (Hq : filter_query dt (attribute_filter attr value PNone)
               = OK (PDict [(PStr "range", PDict [(PStr name, PDict [(PNone, value)])])])).
  { unfold filter_query, attribute_filter. simpl. rewrite Hattr. reflexivity. }
  repeat split.
  - simpl. unfold dict_mem, get_slot. rewrite Hslot, Hval, Hent. simpl.
    rewrite Hroles. reflexivity.
  - exact Hq.
  - rewrite Hq. discriminate.
  - intros kb es object_type limit Hdt.
    unfold get_objects. simpl. rewrite Hdt. simpl. rewrite Hq. reflexivity.
Qed.

Lemma null_role_yields_range_fragment_witness :
  get_attribute_slots movies_of_1999 ["publication_year"]
  = OK [attribute_filter "publication_year" (PStr "1999") PNone]
  /\ filter_query (MovieDocumentType quote_repr "movie")
       (attribute_filter "publication_year" (PStr "1999") PNone)
     = OK (PDict [(PStr "range",
                   PDict [(PStr "publication_year",
                           PDict [(PNone, PStr "1999")])])]).
Proof.
  destruct (null_role_yields_range_fragment
              (MovieDocumentType quote_repr "movie") movies_of_1999
              "publication_year" "publication_year" (PStr "1999")
              [obj_of [("entity", PStr "publication_year");
                       ("value", PStr "1999")]])
    as [H1 [H2 _]]; try reflexivity.
  split; [exact H1 | exact H2].
Defined.

(** ** Results *)

Lemma rbind_ok {A B} (r : result A) (k : A -> result B) (b : B) :
  rbind r k = OK b -> exists a, r = OK a /\ k a = OK b.
Proof. destruct r; simpl; [eauto | discriminate]. Qed.

Ltac bind_inv H :=
  let a := fresh "x" in
  let Ha := fresh "E" in
  apply rbind_ok in H; destruct H as [a [Ha H]].

Lemma mapR_ok_In {A B} (f : A -> result B) (l : list A) (bs : list B) (b : B) :
  mapR f l = OK bs -> In b bs -> exists a, In a l /\ f a = OK b.
Proof.
  revert bs. induction l as [|a l IH]; simpl; intros bs H Hin.
  - inversion H; subst. contradiction.
  - bind_inv H. bind_inv H. inversion H; subst. destruct Hin as [-> | Hin].
    + eauto.
    + destruct (IH _ E0 Hin) as [a' [? ?]]. eauto.
Qed.

(** ** The knowledge base gateway: normalization *)

Lemma extract_fields_keys (attrs : list (string * Attribute)) (source : pyval)
    (acc o : dict) :
  extract_fields attrs source acc = OK o ->
  (forall k, dict_mem acc (PStr k) = true -> dict_mem o (PStr k) = true)
  /\ (forall a, In a (map fst attrs) -> dict_mem o (PStr a) = true).
Proof.
  revert acc. induction attrs as [|[name attribute] attrs IH]; simpl; intros acc H.
  - inversion H; subst. split; [auto | contradiction].
  - bind_inv H. destruct (IH _ H) as [Hacc Hattrs]. split.
    + intros k Hk. apply Hacc. now apply dict_mem_set_preserved.
    + intros a [<- | Hin]; [|auto].
      apply Hacc. unfold dict_mem. now rewrite dict_get_set_same.
Qed.

Lemma extract_fields_total (attrs : list (string * Attribute)) (fields acc : dict) :
  exists o, extract_fields attrs (PDict fields) acc = OK o.
Proof.
  revert acc. induction attrs as [|[name attribute] attrs IH]; simpl; intros acc.
  - eauto.
  - unfold get_field. simpl. destruct (dict_get fields (PStr (_name attribute))); simpl; apply IH.
Qed.

Lemma kb_getitem_str (kb : KnowledgeBase) (ty : string) (dt : DocumentType) :
  kb_getitem kb (PStr ty) = OK dt <-> assoc ty (document_types kb) = Some dt.
Proof.
  simpl. destruct (assoc ty (document_types kb)); split; intros H; inversion H; auto; discriminate.
Qed.

Lemma to_kb_obj_normalized (kb : KnowledgeBase) (hit : pyval) (ty : string) (o : pyval) :
  to_kb_obj kb hit (PStr ty) = OK o -> normalized kb ty o.
Proof.
  unfold to_kb_obj. intros H.
  bind_inv H. bind_inv H. bind_inv H. bind_inv H. bind_inv H.
  inversion H; subst; clear H.
  apply kb_getitem_str in E0.
  destruct (extract_fields_keys _ _ _ _ E3) as [_ Hattrs].
  eexists _, x0. repeat split; auto.
  - apply dict_mem_set_preserved. unfold dict_mem. now rewrite dict_get_set_same.
  - unfold dict_mem. now rewrite dict_get_set_same.
  - intros a Ha. now do 2 apply dict_mem_set_preserved; auto.
Qed.

Lemma to_kb_obj_total (kb : KnowledgeBase) (hit : pyval) (ty : string)
    (dt : DocumentType) :
  assoc ty (document_types kb) = Some dt ->
  renderable dt hit ->
  exists d, to_kb_obj kb hit (PStr ty) = OK (PDict d).
Proof.
  intros Hdt (fields & id & pretty & Hsrc & Hid & Hstr).
  unfold to_kb_obj. rewrite Hsrc. simpl. rewrite Hdt. simpl.
  rewrite Hstr. simpl. rewrite Hid. simpl.
  destruct (extract_fields_total (attributes dt) fields []) as [o Ho].
  rewrite Ho. simpl. eauto.
Qed.

Lemma get_objects_from_hits (kb : KnowledgeBase) (es : Elasticsearch)
    (ty : string) (filters : list pyval) (limit : Z) (objs : list pyval) (o : pyval) :
  get_objects kb es (PStr ty) filters limit = OK objs ->
  In o objs ->
  exists hit, to_kb_obj kb hit (PStr ty) = OK o.
Proof.
  unfold get_objects. intros H Hin.
  bind_inv H. destruct (negb x).
  - inversion H; subst. contradiction.
  - bind_inv H. bind_inv H. bind_inv H. unfold normalize_hits in H.
    bind_inv H. bind_inv H. bind_inv H.
    destruct (mapR_ok_In _ _ _ _ H Hin) as [hit [_ Hhit]]. eauto.
Qed.

Lemma get_object_from_hit (kb : KnowledgeBase) (es : Elasticsearch)
    (ty : string) (id o : pyval) :
  get_object kb es (PStr ty) id = OK o ->
  o = PNone \/ exists hit, to_kb_obj kb hit (PStr ty) = OK o.
Proof.
  unfold get_object. intros H.
  bind_inv H. destruct (negb x).
  - inversion H; auto.
  - bind_inv H. bind_inv H. destruct (py_truthy x1).
    + eauto.
    + inversion H; auto.
Qed.

(** C9. Every normalized object that [get_objects] or [get_object]
    produces for a known type has the reserved keys [name] and [id] and
    an entry for every attribute declared on the type, so in particular
    for each of them that exists in the raw document. *)
Theorem normalized_objects_have_reserved_and_declared_keys
    (kb : KnowledgeBase) (es : Elasticsearch) (object_type : string) :
  (forall filters limit objs o,
      get_objects kb es (PStr object_type) filters limit = OK objs ->
      In o objs -> normalized kb object_type o)
  /\ (forall id o,
        get_object kb es (PStr object_type) id = OK o ->
        o <> PNone -> normalized kb object_type o)
  /\ (forall hit o,
        to_kb_obj kb hit (PStr object_type) = OK o -> normalized kb object_type o).
Proof.
  repeat split.
  - intros filters limit objs o H Hin.
    destruct (get_objects_from_hits _ _ _ _ _ _ _ H Hin) as [hit Hhit].
    eapply to_kb_obj_normalized; eauto.
  - intros id o H Hne.
    destruct (get_object_from_hit _ _ _ _ _ H) as [-> | [hit Hhit]]; [contradiction|].
    eapply to_kb_obj_normalized; eauto.
  - intros hit o H. eapply to_kb_obj_normalized; eauto.
Qed.

Lemma normalized_objects_have_reserved_and_declared_keys_witness :
  get_object (action_knowledge_base quote_repr)
    (store_with [] [("movie", "tt0133093", matrix_movie)])
    (PStr "movie") (PStr "tt0133093")
  = OK (obj_of [("title", PStr "The Matrix");
                ("publication_year", PInt 1999);
                ("genres", PList [PStr "Action"; PStr "Sci-Fi"]);
                ("summary", PNone);
                ("actors", PNone);
                ("director", PStr "Lana Wachowski");
                ("name", PStr "The Matrix from 1999");
                ("id", PStr "tt0133093")])
  /\ normalized (action_knowledge_base quote_repr) "movie"
       (obj_of [("title", PStr "The Matrix");
                ("publication_year", PInt 1999);
                ("genres", PList [PStr "Action"; PStr "Sci-Fi"]);
                ("summary", PNone);
                ("actors", PNone);
                ("director", PStr "Lana Wachowski");
                ("name", PStr "The Matrix from 1999");
                ("id", PStr "tt0133093")]).
Proof.
  split; [reflexivity|].
  apply (proj1 (proj2 (normalized_objects_have_reserved_and_declared_keys
                         (action_knowledge_base quote_repr)
                         (store_with [] [("movie", "tt0133093", matrix_movie)])
                         "movie"))
           (PStr "tt0133093")).
  - reflexivity.
  - discriminate.
Defined.

(** ** The knowledge base gateway: point lookup *)

(** C7 at the input where the program departs from it.  [get_object]
    returns [None] for a type name that is not registered, without
    consulting the store.  For a registered type it has no handler
    around [es.get]: whatever the lookup raises leaves [get_object] as
    that exception, and a response is normalized by [to_kb_obj] when it
    is non-empty.  The client the action builds raises [NotFoundError]
    when no document is stored under the identifier, so a missing
    identifier ends in that fault and not in [None]; the [else] branch
    is reached by an empty response only. *)
Theorem get_object_missing_identifier_raises
    (kb : KnowledgeBase) (es : Elasticsearch) (object_type : string) (id : pyval) :
  (assoc object_type (document_types kb) = None ->
     get_object kb es (PStr object_type) id = OK PNone)
  /\ (forall dt,
        assoc object_type (document_types kb) = Some dt ->
        (forall e, es_get es (index dt) id = Raise e ->
           get_object kb es (PStr object_type) id = Raise e)
        /\ (forall response, es_get es (index dt) id = OK response ->
              get_object kb es (PStr object_type) id
              = if py_truthy response
                then to_kb_obj kb response (PStr object_type)
                else OK PNone)).
Proof.
  split.
  - intros Hnone. unfold get_object. simpl. now rewrite Hnone.
  - intros dt Hdt. split.
    + intros e Hget. unfold get_object. simpl. rewrite Hdt. simpl. now rewrite Hget.
    + intros response Hget. unfold get_object. simpl. rewrite Hdt. simpl.
      now rewrite Hget.
Qed.

(** The store holds the movie tt0133093 and nothing else: the lookup of
    tt0000000 among the movies raises, the lookup under an unknown type
    returns [None], and the lookup of the stored movie returns its
    normalized object. *)
Lemma get_object_missing_identifier_raises_witness :
  find_document [("movie", "tt0133093", matrix_movie)] "movie" "tt0000000" = PNone
  /\ get_object (action_knowledge_base quote_repr)
       (client_store [] [("movie", "tt0133093", matrix_movie)])
       (PStr "movie") (PStr "tt0000000")
     = Raise (ElasticsearchException "NotFoundError")
  /\ get_object (action_knowledge_base quote_repr)
       (client_store [] [("movie", "tt0133093", matrix_movie)])
       (PStr "restaurant") (PStr "tt0000000") = OK PNone
  /\ get_object (action_knowledge_base quote_repr)
       (client_store [] [("movie", "tt0133093", matrix_movie)])
       (PStr "movie") (PStr "tt0133093")
     = OK (obj_of [("title", PStr "The Matrix");
                   ("publication_year", PInt 1999);
                   ("genres", PList [PStr "Action"; PStr "Sci-Fi"]);
                   ("summary", PNone);
                   ("actors", PNone);
                   ("director", PStr "Lana Wachowski");
                   ("name", PStr "The Matrix from 1999");
                   ("id", PStr "tt0133093")]).
Proof.
  split; [reflexivity|]. split; [|split].
  - apply (proj1 (proj2 (get_object_missing_identifier_raises
                           (action_knowledge_base quote_repr)
                           (client_store [] [("movie", "tt0133093", matrix_movie)])
                           "movie" (PStr "tt0000000"))
                    (MovieDocumentType quote_repr "movie") eq_refl)).
    reflexivity.
  - apply (proj1 (get_object_missing_identifier_raises
                    (action_knowledge_base quote_repr)
                    (client_store [] [("movie", "tt0133093", matrix_movie)])
                    "restaurant" (PStr "tt0000000"))).
    reflexivity.
  - rewrite (proj2 (proj2 (get_object_missing_identifier_raises
                             (action_knowledge_base quote_repr)
                             (client_store [] [("movie", "tt0133093", matrix_movie)])
                             "movie" (PStr "tt0133093"))
                      (MovieDocumentType quote_repr "movie") eq_refl)
               matrix_movie eq_refl).
    reflexivity.
Defined.

(** ** The turn resolver: listing mode *)

Lemma normalized_getitem (kb : KnowledgeBase) (ty : string) (o : pyval) (k : string) :
  normalized kb ty o -> k = "name" \/ k = "id" -> exists v, py_getitem o k = OK v.
Proof.
  intros (d & dt & -> & _ & Hname & Hid & _) Hk.
  assert (Hmem : dict_mem d (PStr k) = true) by (destruct Hk; subst; assumption).
  unfold dict_mem in Hmem. simpl.
  destruct (dict_get d (PStr k)); [eauto | discriminate].
Qed.

Lemma In_enumerate {A} (l : list A) (start i : Z) (a : A) :
  In (i, a) (enumerate start l) -> In a l.
Proof.
  revert start. induction l as [|b l IH]; simpl; intros start H; [assumption|].
  destruct H as [H | H]; [inversion H; auto | eauto].
Qed.

Lemma reset_attribute_slots_clear (tracker : Tracker) (attrs : list string)
    (key : string) (v : pyval) :
  In (SlotSet key v) (reset_attribute_slots tracker attrs) -> v = PNone.
Proof.
  induction attrs as [|a attrs IH]; simpl; [contradiction|].
  destruct (is_not_None _); simpl; auto.
  intros [H | H]; [now inversion H | auto].
Qed.

Section Listing.

Variable repr_str : string -> string.
Variable int_of_str : string -> option Z.
Variable dts : list (string * DocumentType).
Variable es : Elasticsearch.

Local Notation "'ekb'" := (ElasticsearchKnowledgeBase dts).

Lemma enumeration_ok (ty : string) (l : list (Z * pyval)) (d : Dispatcher) :
  (forall i o, In (i, o) l -> normalized ekb ty o) ->
  exists d',
    forM_ l (fun '(i, obj) =>
      shown <~ lift (representation_function ekb (PStr ty) obj) ;;
      utter_message (utter_text (str_of_Z i ++ ": " ++ py_str repr_str shown))) d
    = (d', OK tt).
Proof.
  revert d. induction l as [|[i o] l IH]; simpl; intros d H.
  - unfold ret. eauto.
  - destruct (normalized_getitem ekb ty o "name" (H i o (or_introl eq_refl)))
      as [v Hv]; [auto|].
    unfold bind at 1. unfold bind at 1. unfold lift at 1.
    rewrite Hv. unfold utter_message at 1. apply IH. eauto.
Qed.

Lemma enumeration_messages (ty : pyval) (objs names : list pyval) (start : Z)
    (d : Dispatcher) :
  mapR (fun o => py_getitem o "name") objs = OK names ->
  forM_ (enumerate start objs) (fun '(i, obj) =>
    shown <~ lift (representation_function ekb ty obj) ;;
    utter_message (utter_text (str_of_Z i ++ ": " ++ py_str repr_str shown))) d
  = ((d ++ map (fun '(i, name) => enumeration_line repr_str i name)
             (enumerate start names))%list, OK tt).
Proof.
  revert names start d. induction objs as [|o objs IH]; intros names start d H.
  - simpl in H. inversion H. simpl. unfold ret. now rewrite app_nil_r.
  - cbn [mapR] in H. bind_inv H. bind_inv H. inversion H; subst names.
    cbn [enumerate forM_ map].
    unfold bind at 1. unfold bind at 1. unfold lift at 1.
    cbn [representation_function ElasticsearchKnowledgeBase]. rewrite E.
    unfold utter_message at 1. rewrite (IH x0 (start + 1) _ E0).
    unfold enumeration_line at 2. now rewrite <- app_assoc.
Qed.

Lemma utter_objects_ok (ty : string) (objs filters : list pyval) (text : string)
    (d : Dispatcher) :
  attributes_repr filters = OK text ->
  (forall o, In o objs -> normalized ekb ty o) ->
  exists d', utter_objects repr_str ekb (PStr ty) objs filters d = (d', OK tt).
Proof.
  intros Htext Hobjs. unfold utter_objects.
  unfold bind at 1. unfold lift at 1. rewrite Htext.
  destruct objs as [|o objs].
  - unfold utter_message. eauto.
  - unfold bind at 1. unfold utter_message at 1.
    apply enumeration_ok. intros i o' Hin. apply Hobjs.
    now apply In_enumerate in Hin.
Qed.

Lemma listed_keys_ok (ty : string) (objs : list pyval) :
  (forall o, In o objs -> normalized ekb ty o) ->
  exists listed, mapR (fun e => py_getitem e "id") objs = OK listed.
Proof.
  induction objs as [|o objs IH]; intros H; [simpl; eauto|].
  cbn [mapR].
  destruct (normalized_getitem ekb ty o "id" (H o (or_introl eq_refl))) as [v Hv]; [auto|].
  rewrite Hv. destruct IH as [listed Hl]; [intros o' Ho'; apply H; now right|].
  rewrite Hl. simpl. eauto.
Qed.

(** C5. A listing turn whose query returns exactly one object sets the
    last-object slot to the value of that object's key attribute; when
    the query returns no object or more than one, the state delta
    assigns no value to the last-object slot. *)
Theorem listing_last_object_iff_single_result
    (object_type : string) (tracker : Tracker) (attrs : list string)
    (filters : list pyval) (text : string) (limit : Z) (objs : list pyval)
    (d : Dispatcher) :
  get_attributes_of_object ekb (PStr object_type) = OK attrs ->
  get_attribute_slots tracker attrs = OK filters ->
  attributes_repr filters = OK text ->
  limit_argument int_of_str tracker = OK limit ->
  get_objects ekb es (PStr object_type) filters limit = OK objs ->
  exists d' events,
    _query_objects repr_str int_of_str ekb es (PStr object_type) tracker d
    = (d', OK events)
    /\ (forall o, objs = [o] ->
          exists key,
            py_getitem o (key_attribute ekb (PStr object_type)) = OK key
            /\ In (SlotSet SLOT_LAST_OBJECT key) events
            /\ events = (listing_slots (PStr object_type) key [key]
                           ++ reset_attribute_slots tracker attrs)%list)
    /\ (List.length objs <> 1%nat ->
          forall v, In (SlotSet SLOT_LAST_OBJECT v) events -> v = PNone).
Proof.
  intros Hattrs Hfilters Htext Hlimit Hobjs.
  assert (Hnorm : forall o, In o objs -> normalized ekb object_type o).
  { intros o Hin.
    destruct (get_objects_from_hits ekb es object_type filters limit objs o Hobjs Hin)
      as [hit Hhit].
    now apply to_kb_obj_normalized with (hit := hit). }
  destruct (utter_objects_ok object_type objs filters text d Htext Hnorm) as [d' Hd'].
  destruct (listed_keys_ok object_type objs Hnorm) as [listed Hlisted].
  unfold _query_objects.
  change (key_attribute ekb (PStr object_type)) with "id".
  unfold bind at 1. unfold lift at 1. rewrite Hattrs.
  unfold bind at 1. unfold lift at 1. rewrite Hfilters.
  unfold bind at 1. unfold lift at 1. rewrite Hlimit.
  unfold bind at 1. unfold lift at 1. rewrite Hobjs.
  unfold bind at 1. rewrite Hd'.
  destruct objs as [|o [|o' objs]].
  - exists d', (reset_attribute_slots tracker attrs). split; [reflexivity|]. split.
    + intros o H. discriminate.
    + intros _ v Hin. now apply reset_attribute_slots_clear in Hin.
  - destruct (normalized_getitem ekb object_type o "id" (Hnorm o (or_introl eq_refl)))
      as [key Hkey]; [auto|].
    assert (Hl : listed = [key]).
    { cbn [mapR] in Hlisted. rewrite Hkey in Hlisted. simpl in Hlisted.
      now inversion Hlisted. }
    subst listed.
    exists d', (listing_slots (PStr object_type) key [key]
                  ++ reset_attribute_slots tracker attrs)%list.
    split; [|split].
    + unfold bind, lift, ret. rewrite Hkey, Hlisted. reflexivity.
    + intros o0 Ho0. inversion Ho0; subst o0. exists key.
      split; [exact Hkey|]. split; [|reflexivity].
      simpl. auto 6.
    + intros Hlen. simpl in Hlen. contradiction.
  - exists d', (listing_slots (PStr object_type) PNone listed
                  ++ reset_attribute_slots tracker attrs)%list.
    split; [|split].
    + unfold bind, lift, ret. rewrite Hlisted. reflexivity.
    + intros o0 Ho0. discriminate.
    + intros _ v Hin. apply in_app_or in Hin. destruct Hin as [Hin | Hin].
      * simpl in Hin.
        repeat (destruct Hin as [Hin | Hin]; [inversion Hin; reflexivity || discriminate|]).
        contradiction.
      * now apply reset_attribute_slots_clear in Hin.
Qed.

End Listing.

(** One movie found: the last-object slot receives its identifier. *)
Lemma listing_last_object_iff_single_result_witness :
  exists d' events,
    _query_objects quote_repr decimal_literal (action_knowledge_base quote_repr)
      one_movie_store (PStr "movie") list_movies [] = (d', OK events)
    /\ In (SlotSet SLOT_LAST_OBJECT (PStr "tt0133093")) events.
Proof.
  destruct (listing_last_object_iff_single_result quote_repr decimal_literal
              (action_document_types quote_repr) one_movie_store
              "movie" list_movies
              ["title"; "publication_year"; "genres"; "summary"; "actors"; "director"]
              [] EmptyString 5
              [obj_of [("title", PStr "The Matrix");
                       ("publication_year", PInt 1999);
                       ("genres", PList [PStr "Action"; PStr "Sci-Fi"]);
                       ("summary", PNone);
                       ("actors", PNone);
                       ("director", PStr "Lana Wachowski");
                       ("name", PStr "The Matrix from 1999");
                       ("id", PStr "tt0133093")]]
              [] eq_refl eq_refl eq_refl eq_refl eq_refl)
    as (d' & events & Hrun & Hone & _).
  exists d', events. split; [exact Hrun|].
  destruct (Hone _ eq_refl) as (key & Hkey & Hin & _).
  simpl in Hkey. inversion Hkey; subst key. exact Hin.
Defined.

(** Listing with no result or with several ones at concrete trackers. *)
Example listing_two_results :
  _query_objects quote_repr decimal_literal (action_knowledge_base quote_repr)
    two_movies_store (PStr "movie") list_movies []
  = ([utter_text "I found the following movies :";
      utter_text "1: The Matrix from 1999";
      utter_text "2: Inception from 2010"],
     OK [SlotSet SLOT_OBJECT_TYPE (PStr "movie");
         SlotSet SLOT_MENTION PNone;
         SlotSet SLOT_ATTRIBUTE PNone;
         SlotSet SLOT_LAST_OBJECT PNone;
         SlotSet SLOT_LAST_OBJECT_TYPE (PStr "movie");
         SlotSet SLOT_LISTED_OBJECTS (PList [PStr "tt0133093"; PStr "tt1375666"]);
         SlotSet SLOT_LIMIT PNone]).
Proof. reflexivity. Qed.

Example listing_no_result :
  _query_objects quote_repr decimal_literal (action_knowledge_base quote_repr)
    (store_with [] []) (PStr "movie") movies_of_1999 []
  = ([utter_text "I could not find any movies  with publication_year: 1999."],
     OK [SlotSet "publication_year" PNone]).
Proof. reflexivity. Qed.

(** ** The turn resolver: join mode *)

Section Join.

Variable repr_str : string -> string.
Variable kb : KnowledgeBase.
Variable es : Elasticsearch.
Variable get_object_name : Tracker -> result pyval.

(** When the name does not resolve or the lookup under the previous type
    returns nothing, the turn asks to rephrase and clears the mention. *)
Lemma join_unresolved_clears_mention
    (object_type last_object_type : pyval) (tracker : Tracker)
    (attrs : list string) (object_name last_object : pyval) (d : Dispatcher) :
  get_attributes_of_object kb object_type = OK attrs ->
  get_object_name tracker = OK object_name ->
  get_object kb es last_object_type object_name = OK last_object ->
  py_truthy object_name = false \/ py_truthy last_object = false ->
  _query_join_objects repr_str kb es get_object_name object_type last_object_type
    tracker d
  = ((d ++ [utter_template "utter_ask_rephrase"])%list, OK [SlotSet SLOT_MENTION PNone]).
Proof.
  intros Hattrs Hname Hlast Hmiss. unfold _query_join_objects.
  unfold bind at 1. unfold lift at 1. rewrite Hattrs.
  unfold bind at 1. unfold lift at 1. rewrite Hname.
  unfold bind at 1. unfold lift at 1. rewrite Hlast.
  assert (Hcond : negb (py_truthy object_name) || negb (py_truthy object_type)
                  || negb (py_truthy last_object) = true).
  { destruct Hmiss as [H | H]; rewrite H; simpl;
      [reflexivity | apply orb_true_r]. }
  rewrite Hcond. reflexivity.
Qed.

(** The response of a join turn in which the name resolves and both
    objects are found and rendered. *)
Lemma join_response_text
    (object_type last_object_type : string) (tracker : Tracker)
    (dt last_dt : DocumentType) (object_name last_object object_of_interest : pyval)
    (obj_repr last_obj_repr : string) (d : Dispatcher) :
  assoc object_type (document_types kb) = Some dt ->
  assoc last_object_type (document_types kb) = Some last_dt ->
  object_type <> EmptyString ->
  get_object_name tracker = OK object_name ->
  py_truthy object_name = true ->
  get_object kb es (PStr last_object_type) object_name = OK last_object ->
  py_truthy last_object = true ->
  get_object kb es (PStr object_type) object_name = OK object_of_interest ->
  to_string dt object_of_interest = OK obj_repr ->
  to_string last_dt last_object = OK last_obj_repr ->
  fst (_query_join_objects repr_str kb es get_object_name
         (PStr object_type) (PStr last_object_type) tracker d)
  = (d ++ [utter_text (obj_repr ++ " is the " ++ object_type ++ " for "
                         ++ last_object_type ++ " " ++ last_obj_repr ++ ".")])%list.
Proof.
  intros Hdt Hlast_dt Hty Hname Hname_set Hlast Hlast_set Hobj Hrepr Hlast_repr.
  unfold _query_join_objects, bind, lift.
  unfold get_attributes_of_object. cbn [kb_contains kb_getitem].
  rewrite Hdt. cbn [rbind negb]. rewrite Hname, Hlast, Hname_set, Hlast_set.
  cbn [py_truthy]. apply String.eqb_neq in Hty. rewrite Hty. cbn [negb orb].
  rewrite Hobj, Hlast_dt. cbn [rbind]. rewrite Hrepr, Hlast_repr.
  reflexivity.
Qed.

(** C3, as the code has it. On a successful join turn the state delta
    sets both the current-object-type slot and the last-object-type slot
    to the previous object type, so that the previous type becomes the
    current focus, clears the mention, attribute and limit slots and
    sets last-object to the resolved name; the utterance is
    "<current object> is the <current type> for <previous type>
    <previous object>.". *)
Theorem join_success_focuses_previous_type
    (object_type last_object_type : string) (tracker : Tracker)
    (dt last_dt : DocumentType) (object_name last_object object_of_interest : pyval)
    (obj_repr last_obj_repr : string) (d : Dispatcher) :
  assoc object_type (document_types kb) = Some dt ->
  assoc last_object_type (document_types kb) = Some last_dt ->
  object_type <> EmptyString ->
  get_object_name tracker = OK object_name ->
  py_truthy object_name = true ->
  get_object kb es (PStr last_object_type) object_name = OK last_object ->
  py_truthy last_object = true ->
  get_object kb es (PStr object_type) object_name = OK object_of_interest ->
  to_string dt object_of_interest = OK obj_repr ->
  to_string last_dt last_object = OK last_obj_repr ->
  _query_join_objects repr_str kb es get_object_name
    (PStr object_type) (PStr last_object_type) tracker d
  = ((d ++ [utter_text (obj_repr ++ " is the " ++ object_type ++ " for "
                          ++ last_object_type ++ " " ++ last_obj_repr ++ ".")])%list,
     OK [SlotSet SLOT_OBJECT_TYPE (PStr last_object_type);
         SlotSet SLOT_MENTION PNone;
         SlotSet SLOT_ATTRIBUTE PNone;
         SlotSet SLOT_LAST_OBJECT object_name;
         SlotSet SLOT_LAST_OBJECT_TYPE (PStr last_object_type);
         SlotSet SLOT_LIMIT PNone]).
Proof.
  intros Hdt Hlast_dt Hty Hname Hname_set Hlast Hlast_set Hobj Hrepr Hlast_repr.
  unfold _query_join_objects.
  assert (Hattrs : get_attributes_of_object kb (PStr object_type)
                   = OK (map fst (attributes dt))).
  { unfold get_attributes_of_object. simpl. now rewrite Hdt. }
  unfold bind at 1. unfold lift at 1. rewrite Hattrs.
  unfold bind at 1. unfold lift at 1. rewrite Hname.
  unfold bind at 1. unfold lift at 1. rewrite Hlast.
  assert (Hcond : negb (py_truthy object_name) || negb (py_truthy (PStr object_type))
                  || negb (py_truthy last_object) = false).
  { rewrite Hname_set, Hlast_set. simpl.
    apply String.eqb_neq in Hty. now rewrite Hty. }
  rewrite Hcond.
  unfold bind at 1. unfold lift at 1. rewrite Hobj.
  unfold bind at 1. unfold lift at 1.
  rewrite (proj2 (kb_getitem_str kb object_type dt) Hdt). cbn [rbind]. rewrite Hrepr.
  unfold bind at 1. unfold lift at 1.
  rewrite (proj2 (kb_getitem_str kb last_object_type last_dt) Hlast_dt).
  cbn [rbind]. rewrite Hlast_repr.
  reflexivity.
Qed.

End Join.

(** Scenario B of the specification. *)
Lemma join_success_focuses_previous_type_witness :
  _query_join_objects quote_repr (action_knowledge_base quote_repr)
    movie_and_rating_store (resolves_to (PStr "tt0133093"))
    (PStr "rating") (PStr "movie") rating_for_that []
  = ([utter_text
        "9 out of 10 (1900000 votes) is the rating for movie The Matrix from 1999."],
     OK [SlotSet SLOT_OBJECT_TYPE (PStr "movie");
         SlotSet SLOT_MENTION PNone;
         SlotSet SLOT_ATTRIBUTE PNone;
         SlotSet SLOT_LAST_OBJECT (PStr "tt0133093");
         SlotSet SLOT_LAST_OBJECT_TYPE (PStr "movie");
         SlotSet SLOT_LIMIT PNone]).
Proof.
  apply (join_success_focuses_previous_type quote_repr
           (action_knowledge_base quote_repr) movie_and_rating_store
           (resolves_to (PStr "tt0133093")) "rating" "movie" rating_for_that
           (RatingDocumentType quote_repr "rating")
           (MovieDocumentType quote_repr "movie")
           (PStr "tt0133093")
           (obj_of [("title", PStr "The Matrix");
                    ("publication_year", PInt 1999);
                    ("genres", PList [PStr "Action"; PStr "Sci-Fi"]);
                    ("summary", PNone);
                    ("actors", PNone);
                    ("director", PStr "Lana Wachowski");
                    ("name", PStr "The Matrix from 1999");
                    ("id", PStr "tt0133093")])
           (obj_of [("mean_rating", PInt 9);
                    ("total_votes", PInt 1900000);
                    ("name", PStr "9 out of 10 (1900000 votes)");
                    ("id", PStr "tt0133093")])
           "9 out of 10 (1900000 votes)" "The Matrix from 1999" []);
    try reflexivity.
  discriminate.
Defined.

(** C3, as the claim has it, fails: after the join turn of scenario B
    the last-object-type slot is not given the current type, "rating";
    the two type slots are not swapped. *)
Lemma join_does_not_swap_type_roles :
  exists d events,
    run quote_repr decimal_literal (action_knowledge_base quote_repr)
      movie_and_rating_store (resolves_to (PStr "tt0133093"))
      idle_attribute_handler rating_for_that []
    = (d, OK events)
    /\ select_mode rating_for_that = JoinMode
    /\ ~ swaps_type_roles rating_for_that events.
Proof.
  eexists _, _. split; [reflexivity|]. split; [reflexivity|].
  intros [_ H]. simpl in H.
  repeat (destruct H as [H | H]; [discriminate|]). contradiction.
Qed.


(** ** Store faults *)




(** ** Sanitization *)

Lemma sanitize_clean (text : string) : has_template_char (sanitize text) = false.
Proof.
  induction text as [|c rest IH]; simpl; [reflexivity|].
  destruct (is_template_char c) eqn:E; simpl; [assumption|].
  now rewrite E, IH.
Qed.

Lemma has_template_char_app (a b : string) :
  has_template_char (a ++ b) = has_template_char a || has_template_char b.
Proof.
  induction a as [|c a IH]; simpl; [reflexivity|].
  now rewrite IH, orb_assoc.
Qed.

(** C8, as the code has it.  The answer of attribute mode for a
    non-empty value is the sanitized text of the value followed by a
    full stop, and contains none of the characters [{ } [ ]]; the value
    "Sci-Fi [2020]" is sent as "Sci-Fi 2020.".  Every other text is sent
    as it is rendered, with whatever characters the rendering holds: the
    no-value message with the attribute name and the object name, the
    heading and the lines of the listing enumeration with the names of
    the objects, the message of an empty listing, and the join response
    with the renderings of the two objects. *)
Theorem attribute_answer_is_sanitized (repr_str : string -> string) :
  (forall object_name attribute_name attribute_value d,
      py_truthy attribute_value = true ->
      utter_attribute_value repr_str object_name attribute_name attribute_value d
      = ((d ++ [utter_text (sanitize (py_str repr_str attribute_value) ++ ".")])%list,
         OK tt)
      /\ has_template_char (sanitize (py_str repr_str attribute_value) ++ ".") = false)
  /\ (forall object_name attribute_name d,
        utter_attribute_value repr_str object_name attribute_name
          (PStr "Sci-Fi [2020]") d
        = ((d ++ [utter_text "Sci-Fi 2020."])%list, OK tt))
  /\ (forall object_name attribute_name attribute_value d,
        py_truthy attribute_value = false ->
        utter_attribute_value repr_str object_name attribute_name attribute_value d
        = ((d ++ [utter_text
                    ("Did not find a valid value for attribute '"
                       ++ py_str repr_str attribute_name ++ "' for object '"
                       ++ py_str repr_str object_name ++ "'.")])%list,
           OK tt))
  /\ (forall dts object_type objs names filters text d,
        attributes_repr filters = OK text ->
        mapR (fun o => py_getitem o "name") objs = OK names ->
        objs <> [] ->
        utter_objects repr_str (ElasticsearchKnowledgeBase dts) object_type objs
          filters d
        = ((d ++ utter_text ("I found the following " ++ py_str repr_str object_type
                               ++ "s " ++ text ++ ":")
              :: map (fun '(i, name) =>
                        utter_text (str_of_Z i ++ ": " ++ py_str repr_str name))
                   (enumerate 1 names))%list,
           OK tt))
  /\ (forall kb object_type filters text d,
        attributes_repr filters = OK text ->
        utter_objects repr_str kb object_type [] filters d
        = ((d ++ [utter_text ("I could not find any " ++ py_str repr_str object_type
                                ++ "s " ++ text ++ ".")])%list,
           OK tt))
  /\ (forall kb es get_object_name object_type last_object_type tracker dt last_dt
             object_name last_object object_of_interest obj_repr last_obj_repr d,
        assoc object_type (document_types kb) = Some dt ->
        assoc last_object_type (document_types kb) = Some last_dt ->
        object_type <> EmptyString ->
        get_object_name tracker = OK object_name ->
        py_truthy object_name = true ->
        get_object kb es (PStr last_object_type) object_name = OK last_object ->
        py_truthy last_object = true ->
        get_object kb es (PStr object_type) object_name = OK object_of_interest ->
        to_string dt object_of_interest = OK obj_repr ->
        to_string last_dt last_object = OK last_obj_repr ->
        fst (_query_join_objects repr_str kb es get_object_name
               (PStr object_type) (PStr last_object_type) tracker d)
        = (d ++ [utter_text (obj_repr ++ " is the " ++ object_type ++ " for "
                               ++ last_object_type ++ " " ++ last_obj_repr ++ ".")])%list).
Proof.
  split; [|split; [|split; [|split; [|split]]]].
  - intros object_name attribute_name attribute_value d Hvalue.
    unfold utter_attribute_value. rewrite Hvalue. split; [reflexivity|].
    rewrite has_template_char_app, sanitize_clean. reflexivity.
  - reflexivity.
  - intros object_name attribute_name attribute_value d Hvalue.
    unfold utter_attribute_value. rewrite Hvalue. reflexivity.
  - intros dts object_type objs names filters text d Htext Hnames Hne.
    unfold utter_objects. unfold bind at 1. unfold lift at 1. rewrite Htext.
    destruct objs as [|o objs]; [contradiction|].
    unfold bind at 1. unfold utter_message at 1.
    rewrite (enumeration_messages repr_str dts object_type (o :: objs) names 1 _ Hnames).
    rewrite <- app_assoc. reflexivity.
  - intros kb object_type filters text d Htext.
    unfold utter_objects. unfold bind at 1. unfold lift at 1. rewrite Htext.
    reflexivity.
  - intros kb es get_object_name object_type last_object_type tracker dt last_dt
      object_name last_object object_of_interest obj_repr last_obj_repr d
      Hdt Hlast_dt Hty Hname Hname_set Hlast Hlast_set Hobj Hrepr Hlast_repr.
    exact (join_response_text repr_str kb es get_object_name object_type
             last_object_type tracker dt last_dt object_name last_object
             object_of_interest obj_repr last_obj_repr d
             Hdt Hlast_dt Hty Hname Hname_set Hlast Hlast_set Hobj Hrepr Hlast_repr).
Qed.

(** The value "Sci-Fi [2020]" loses its brackets in the attribute answer;
    the name of the object keeps them in the no-value message. *)
Lemma attribute_answer_is_sanitized_witness :
  utter_attribute_value quote_repr (PStr "Dune from 1965") (PStr "genres")
    (PStr "Sci-Fi [2020]") []
  = ([utter_text "Sci-Fi 2020."], OK tt)
  /\ utter_attribute_value quote_repr (PStr "Sci-Fi [2020] from 2020") (PStr "summary")
       PNone []
     = ([utter_text "Did not find a valid value for attribute 'summary' for object 'Sci-Fi [2020] from 2020'."],
        OK tt).
Proof.
  split.
  - apply (proj1 (proj1 (attribute_answer_is_sanitized quote_repr)
                    (PStr "Dune from 1965") (PStr "genres") (PStr "Sci-Fi [2020]") []
                    eq_refl)).
  - apply (proj1 (proj2 (proj2 (attribute_answer_is_sanitized quote_repr)))
             (PStr "Sci-Fi [2020] from 2020") (PStr "summary") PNone [] eq_refl).
Defined.

(** C8, as the claim has it, fails: the listing of a book titled
    "Sci-Fi [2020]" is sent with its brackets. *)
Lemma listing_is_not_sanitized :
  run quote_repr decimal_literal (action_knowledge_base quote_repr)
    bracket_book_store (resolves_to PNone) idle_attribute_handler list_books []
  = ([utter_text "I found the following books :";
      utter_text "1: Sci-Fi [2020] from 2020"],
     OK [SlotSet SLOT_OBJECT_TYPE (PStr "book");
         SlotSet SLOT_MENTION PNone;
         SlotSet SLOT_ATTRIBUTE PNone;
         SlotSet SLOT_LAST_OBJECT (PStr "b42");
         SlotSet SLOT_LAST_OBJECT_TYPE (PStr "book");
         SlotSet SLOT_LISTED_OBJECTS (PList [PStr "b42"]);
         SlotSet SLOT_LIMIT PNone])
  /\ all_sanitized
       (fst (run quote_repr decimal_literal (action_knowledge_base quote_repr)
               bracket_book_store (resolves_to PNone) idle_attribute_handler
               list_books [])) = false.
Proof. split; reflexivity. Qed.

(* ================================================================== *)
(** * Further properties *)

(** ** Sanitization *)

(** X1. [sanitize] deletes the four characters and nothing else: the
    result is the text with exactly the braces and square brackets
    filtered out, it contains none of them, and sanitizing twice is the
    same as sanitizing once. *)
Theorem sanitize_filters_template_chars (text : string) :
  list_ascii_of_string (sanitize text)
  = filter (fun c => negb (is_template_char c)) (list_ascii_of_string text)
  /\ has_template_char (sanitize text) = false
  /\ sanitize (sanitize text) = sanitize text.
Proof.
  split; [|split].
  - induction text as [|c rest IH]; simpl; [reflexivity|].
    destruct (is_template_char c); simpl; now rewrite IH.
  - apply sanitize_clean.
  - induction text as [|c rest IH]; simpl; [reflexivity|].
    destruct (is_template_char c) eqn:E; simpl; [assumption|].
    now rewrite E, IH.
Qed.

(** X2. [sanitize] works through a concatenation part by part. *)
Theorem sanitize_app (a b : string) :
  sanitize (a ++ b) = sanitize a ++ sanitize b.
Proof.
  induction a as [|c a IH]; simpl; [reflexivity|].
  destruct (is_template_char c); simpl; now rewrite IH.
Qed.

(** ** The knowledge base gateway *)

Lemma unknown_type_is_empty_aux
    (kb : KnowledgeBase) (es : Elasticsearch) (object_type : string)
    (filters : list pyval) (limit : Z) :
  assoc object_type (document_types kb) = None ->
  get_attributes_of_object kb (PStr object_type) = OK []
  /\ get_objects kb es (PStr object_type) filters limit = OK [].
Proof.
  intros Hnone. unfold get_attributes_of_object, get_objects. simpl.
  rewrite Hnone. split; reflexivity.
Qed.

(** X3. For a type name that is not registered, the attribute list is
    empty and the listing is empty, whatever the filters and the limit
    are and whatever the store would answer: the store is not
    consulted. *)
Theorem unknown_type_is_empty
    (kb : KnowledgeBase) (es : Elasticsearch) (object_type : string)
    (filters : list pyval) (limit : Z) :
  assoc object_type (document_types kb) = None ->
  get_attributes_of_object kb (PStr object_type) = OK []
  /\ get_objects kb es (PStr object_type) filters limit = OK [].
Proof. apply unknown_type_is_empty_aux. Qed.

Lemma unknown_type_is_empty_witness :
  get_attributes_of_object (action_knowledge_base quote_repr) (PStr "restaurant") = OK []
  /\ get_objects (action_knowledge_base quote_repr) unavailable_store
       (PStr "restaurant") [PNone] 5 = OK [].
Proof.
  apply (unknown_type_is_empty (action_knowledge_base quote_repr) unavailable_store
           "restaurant" [PNone] 5).
  reflexivity.
Defined.

Lemma mapR_ok_Forall2 {A B} (f : A -> result B) (l : list A) (bs : list B) :
  mapR f l = OK bs <-> Forall2 (fun a b => f a = OK b) l bs.
Proof.
  revert bs. induction l as [|a l IH]; simpl; intros bs.
  - split; intros H.
    + inversion H. constructor.
    + inversion H. reflexivity.
  - split; intros H.
    + bind_inv H. bind_inv H. inversion H; subst. constructor; [assumption|].
      now apply IH.
    + inversion H as [|? b ? bs' Hf Hrest]; subst.
      rewrite Hf. simpl. apply IH in Hrest. rewrite Hrest. reflexivity.
Qed.

Lemma mapR_raise_In {A B} (f : A -> result B) (l : list A) (a : A) (e : exn) :
  In a l -> f a = Raise e -> exists e', mapR f l = Raise e'.
Proof.
  induction l as [|b l IH]; simpl; [contradiction|].
  intros [-> | Hin] Hf.
  - rewrite Hf. simpl. eauto.
  - destruct (f b); simpl; [|eauto].
    destruct (IH Hin Hf) as [e' He']. rewrite He'. simpl. eauto.
Qed.

Lemma get_objects_known (kb : KnowledgeBase) (es : Elasticsearch) (ty : string)
    (dt : DocumentType) (filters : list pyval) (limit : Z) :
  assoc ty (document_types kb) = Some dt ->
  get_objects kb es (PStr ty) filters limit
  = (queries <- mapR (filter_query dt) filters ;;
     res <- es_search es (index dt) (search_body limit queries) ;;
     normalize_hits kb (PStr ty) res).
Proof.
  intros Hdt. unfold get_objects. simpl. rewrite Hdt. reflexivity.
Qed.

(** X4. A listing over a registered type issues one search, on the
    index of the type, with the body
    [{"size": limit, "query": {"bool": {"must": fragments}}}], the
    fragments being those of the filters in their order, and returns one
    normalized object per hit of the search response, in the order of
    the hits: no hit is dropped and none is added. *)
Theorem get_objects_one_object_per_hit
    (kb : KnowledgeBase) (es : Elasticsearch) (object_type : string)
    (dt : DocumentType) (filters : list pyval) (limit : Z) (objs : list pyval) :
  assoc object_type (document_types kb) = Some dt ->
  get_objects kb es (PStr object_type) filters limit = OK objs ->
  exists queries res hits,
    Forall2 (fun f q => filter_query dt f = OK q) filters queries
    /\ es_search es (index dt)
         (PDict [(PStr "size", PInt limit);
                 (PStr "query",
                  PDict [(PStr "bool", PDict [(PStr "must", PList queries)])])])
       = OK res
    /\ response_hits res = OK hits
    /\ Forall2 (fun hit o => to_kb_obj kb hit (PStr object_type) = OK o) hits objs
    /\ List.length objs = List.length hits.
Proof.
  intros Hdt H. rewrite (get_objects_known kb es object_type dt filters limit Hdt) in H.
  bind_inv H. bind_inv H. unfold normalize_hits in H.
  bind_inv H. bind_inv H. bind_inv H.
  exists x, x0, x3. split; [|split; [|split; [|split]]].
  - now apply mapR_ok_Forall2.
  - exact E0.
  - unfold response_hits. rewrite E1. simpl. rewrite E2. simpl. exact E3.
  - now apply mapR_ok_Forall2.
  - apply mapR_ok_Forall2 in H. symmetry. eapply Forall2_length; eauto.
Qed.

Lemma get_objects_one_object_per_hit_witness :
  exists hits,
    response_hits (search_response [matrix_movie; inception_movie]) = OK hits
    /\ Forall2 (fun hit o =>
                  to_kb_obj (action_knowledge_base quote_repr) hit (PStr "movie") = OK o)
         hits
         [obj_of [("title", PStr "The Matrix");
                  ("publication_year", PInt 1999);
                  ("genres", PList [PStr "Action"; PStr "Sci-Fi"]);
                  ("summary", PNone);
                  ("actors", PNone);
                  ("director", PStr "Lana Wachowski");
                  ("name", PStr "The Matrix from 1999");
                  ("id", PStr "tt0133093")];
          obj_of [("title", PStr "Inception");
                  ("publication_year", PInt 2010);
                  ("genres", PNone);
                  ("summary", PNone);
                  ("actors", PNone);
                  ("director", PNone);
                  ("name", PStr "Inception from 2010");
                  ("id", PStr "tt1375666")]].
Proof.
  destruct (get_objects_one_object_per_hit (action_knowledge_base quote_repr)
              two_movies_store "movie" (MovieDocumentType quote_repr "movie") [] 5
              _ eq_refl eq_refl)
    as (queries & res & hits & Hq & Hres & Hhits & Hall & _).
  inversion Hq; subst queries.
  simpl in Hres. inversion Hres; subst res.
  exists hits. split; assumption.
Defined.

(** X5. The listing is all or nothing: when one hit of the response
    cannot be normalized, [get_objects] raises and returns no object at
    all. *)
Theorem get_objects_one_bad_hit_fails
    (kb : KnowledgeBase) (es : Elasticsearch) (object_type : string)
    (dt : DocumentType) (filters queries : list pyval) (limit : Z)
    (res : pyval) (hits : list pyval) (hit : pyval) (e : exn) :
  assoc object_type (document_types kb) = Some dt ->
  mapR (filter_query dt) filters = OK queries ->
  es_search es (index dt) (search_body limit queries) = OK res ->
  response_hits res = OK hits ->
  In hit hits ->
  to_kb_obj kb hit (PStr object_type) = Raise e ->
  exists e', get_objects kb es (PStr object_type) filters limit = Raise e'.
Proof.
  intros Hdt Hq Hres Hhits Hin Hbad.
  rewrite (get_objects_known kb es object_type dt filters limit Hdt), Hq. simpl.
  rewrite Hres. simpl. unfold normalize_hits. unfold response_hits in Hhits.
  bind_inv Hhits. bind_inv Hhits. rewrite E. simpl. rewrite E0. simpl.
  rewrite Hhits. simpl.
  exact (mapR_raise_In (fun h => to_kb_obj kb h (PStr object_type)) hits hit e Hin Hbad).
Qed.

Lemma get_objects_one_bad_hit_fails_witness :
  exists e',
    get_objects (action_knowledge_base quote_repr)
      (store_with [matrix_movie; obj_of [("_id", PStr "tt0000001");
                                        ("_source", obj_of [("title", PStr "Untitled")])]]
         [])
      (PStr "movie") [] 5 = Raise e'.
Proof.
  apply (get_objects_one_bad_hit_fails (action_knowledge_base quote_repr)
           (store_with [matrix_movie; obj_of [("_id", PStr "tt0000001");
                                             ("_source", obj_of [("title", PStr "Untitled")])]]
              [])
           "movie" (MovieDocumentType quote_repr "movie") [] [] 5
           (search_response
              [matrix_movie; obj_of [("_id", PStr "tt0000001");
                                     ("_source", obj_of [("title", PStr "Untitled")])]])
           [matrix_movie; obj_of [("_id", PStr "tt0000001");
                                  ("_source", obj_of [("title", PStr "Untitled")])]]
           (obj_of [("_id", PStr "tt0000001");
                    ("_source", obj_of [("title", PStr "Untitled")])])
           (KeyError (PStr "publication_year")));
    try reflexivity.
  simpl. auto.
Defined.

(** ** Normalization in detail *)

Lemma dict_mem_set_inv (d : dict) (k k' : string) (v : pyval) :
  dict_mem (dict_set d (PStr k) v) (PStr k') = true ->
  k' = k \/ dict_mem d (PStr k') = true.
Proof.
  destruct (String.eqb k k') eqn:E.
  - apply String.eqb_eq in E. auto.
  - apply String.eqb_neq in E. unfold dict_mem.
    rewrite (dict_get_set_other d k k' v E). auto.
Qed.

Lemma extract_fields_get_other (attrs : list (string * Attribute)) (source : pyval)
    (acc o : dict) (k : string) :
  extract_fields attrs source acc = OK o ->
  ~ In k (map fst attrs) ->
  dict_get o (PStr k) = dict_get acc (PStr k).
Proof.
  revert acc. induction attrs as [|[name attribute] attrs IH]; simpl; intros acc H Hnot.
  - now inversion H.
  - bind_inv H. rewrite (IH _ H) by tauto.
    apply dict_get_set_other. intros ->. tauto.
Qed.

Lemma extract_fields_mem_inv (attrs : list (string * Attribute)) (source : pyval)
    (acc o : dict) (k : string) :
  extract_fields attrs source acc = OK o ->
  dict_mem o (PStr k) = true ->
  dict_mem acc (PStr k) = true \/ In k (map fst attrs).
Proof.
  revert acc. induction attrs as [|[name attribute] attrs IH]; simpl; intros acc H Hmem.
  - inversion H; subst. auto.
  - bind_inv H. destruct (IH _ H Hmem) as [Hacc | Hin]; [|auto].
    apply dict_mem_set_inv in Hacc. destruct Hacc as [-> | Hacc]; auto.
Qed.

Lemma extract_fields_value (attrs : list (string * Attribute)) (source : pyval)
    (acc o : dict) (a : string) (strategy : Attribute) :
  NoDup (map fst attrs) ->
  In (a, strategy) attrs ->
  extract_fields attrs source acc = OK o ->
  exists v, get_field strategy source = OK v /\ dict_get o (PStr a) = Some v.
Proof.
  revert acc. induction attrs as [|[name attribute] attrs IH]; simpl;
    intros acc Hnodup Hin H; [contradiction|].
  inversion Hnodup as [|? ? Hfresh Hrest]; subst.
  bind_inv H. destruct Hin as [Heq | Hin].
  - inversion Heq; subst. exists x. split; [assumption|].
    rewrite (extract_fields_get_other attrs source _ o a H Hfresh).
    apply dict_get_set_same.
  - eapply IH; eauto.
Qed.

Lemma to_kb_obj_entries_aux
    (kb : KnowledgeBase) (hit : pyval) (object_type : string) (dt : DocumentType)
    (source id : pyval) (pretty : string) (o : pyval) :
  assoc object_type (document_types kb) = Some dt ->
  py_getitem hit "_source" = OK source ->
  py_getitem hit "_id" = OK id ->
  to_string dt source = OK pretty ->
  to_kb_obj kb hit (PStr object_type) = OK o ->
  exists d,
    o = PDict d
    /\ dict_get d (PStr "name") = Some (PStr pretty)
    /\ dict_get d (PStr "id") = Some id
    /\ (forall k, dict_mem d (PStr k) = true ->
          k = "name" \/ k = "id" \/ In k (map fst (attributes dt)))
    /\ (NoDup (map fst (attributes dt)) ->
        forall a strategy,
          In (a, strategy) (attributes dt) -> a <> "name" -> a <> "id" ->
          exists v, get_field strategy source = OK v /\ dict_get d (PStr a) = Some v).
Proof.
  intros Hdt Hsrc Hid Hstr H. unfold to_kb_obj in H.
  rewrite Hsrc in H. simpl in H. rewrite Hdt in H. simpl in H.
  rewrite Hstr in H. simpl in H. rewrite Hid in H. simpl in H.
  bind_inv H. inversion H; subst o; clear H.
  eexists. split; [reflexivity|]. split; [|split; [|split]].
  - rewrite dict_get_set_other by discriminate. apply dict_get_set_same.
  - apply dict_get_set_same.
  - intros k Hk.
    apply dict_mem_set_inv in Hk. destruct Hk as [-> | Hk]; [auto|].
    apply dict_mem_set_inv in Hk. destruct Hk as [-> | Hk]; [auto|].
    destruct (extract_fields_mem_inv _ _ _ _ _ E Hk) as [Hacc | Hin]; [discriminate | auto].
  - intros Hnodup a strategy Hin Hname Hidne.
    destruct (extract_fields_value _ _ _ _ _ _ Hnodup Hin E) as [v [Hv Hget]].
    exists v. split; [assumption|].
    rewrite dict_get_set_other by (intros Heq; now subst).
    rewrite dict_get_set_other by (intros Heq; now subst).
    assumption.
Qed.

(** X6. What a normalized object holds.  Its [name] is the rendering of
    the raw document and its [id] the identifier of the hit, also when
    the type declares an attribute called [name] or [id]; every other
    declared attribute holds what the strategy extracts from the raw
    document; and the object has no key besides [name], [id] and the
    declared attributes, so undeclared fields of the raw document are
    dropped. *)
Theorem to_kb_obj_entries
    (kb : KnowledgeBase) (hit : pyval) (object_type : string) (dt : DocumentType)
    (source id : pyval) (pretty : string) (o : pyval) :
  assoc object_type (document_types kb) = Some dt ->
  py_getitem hit "_source" = OK source ->
  py_getitem hit "_id" = OK id ->
  to_string dt source = OK pretty ->
  to_kb_obj kb hit (PStr object_type) = OK o ->
  exists d,
    o = PDict d
    /\ dict_get d (PStr "name") = Some (PStr pretty)
    /\ dict_get d (PStr "id") = Some id
    /\ (forall k, dict_mem d (PStr k) = true ->
          k = "name" \/ k = "id" \/ In k (map fst (attributes dt)))
    /\ (NoDup (map fst (attributes dt)) ->
        forall a strategy,
          In (a, strategy) (attributes dt) -> a <> "name" -> a <> "id" ->
          exists v, get_field strategy source = OK v /\ dict_get d (PStr a) = Some v).
Proof. apply to_kb_obj_entries_aux. Qed.

Lemma to_kb_obj_entries_witness :
  exists d,
    to_kb_obj (action_knowledge_base quote_repr) matrix_movie (PStr "movie") = OK (PDict d)
    /\ dict_get d (PStr "name") = Some (PStr "The Matrix from 1999")
    /\ dict_get d (PStr "id") = Some (PStr "tt0133093")
    /\ dict_mem d (PStr "_index") = false.
Proof.
  destruct (to_kb_obj_entries (action_knowledge_base quote_repr) matrix_movie "movie"
              (MovieDocumentType quote_repr "movie")
              (obj_of [("title", PStr "The Matrix");
                       ("publication_year", PInt 1999);
                       ("genres", PList [PStr "Action"; PStr "Sci-Fi"]);
                       ("director", PStr "Lana Wachowski")])
              (PStr "tt0133093") "The Matrix from 1999"
              (obj_of [("title", PStr "The Matrix");
                       ("publication_year", PInt 1999);
                       ("genres", PList [PStr "Action"; PStr "Sci-Fi"]);
                       ("summary", PNone);
                       ("actors", PNone);
                       ("director", PStr "Lana Wachowski");
                       ("name", PStr "The Matrix from 1999");
                       ("id", PStr "tt0133093")])
              eq_refl eq_refl eq_refl eq_refl eq_refl)
    as (d & Hd & Hname & Hid & _).
  exists d. inversion Hd; subst d. repeat split; reflexivity.
Defined.

Lemma py_getitem_dict_inv (x : pyval) (k : string) (v : pyval) :
  py_getitem x k = OK v -> exists d, x = PDict d /\ dict_get d (PStr k) = Some v.
Proof.
  destruct x; simpl; try discriminate.
  destruct (dict_get d (PStr k)) eqn:E; [|discriminate].
  intros H. inversion H; subst. eauto.
Qed.

Lemma get_field_present (strategy : Attribute) (d : dict) (v : pyval) :
  dict_get d (PStr (_name strategy)) = Some v ->
  get_field strategy (PDict d) = OK v.
Proof. intros H. unfold get_field. simpl. now rewrite H. Qed.

Ltac nodup_strings :=
  repeat (constructor; [simpl; intuition discriminate|]); constructor.

Lemma rendering_of_normalized
    (repr_str : string -> string) (hit : pyval) (object_type : string)
    (dt : DocumentType) (o : pyval) :
  assoc object_type (action_document_types repr_str) = Some dt ->
  to_kb_obj (action_knowledge_base repr_str) hit (PStr object_type) = OK o ->
  exists name, py_getitem o "name" = OK (PStr name) /\ to_string dt o = OK name.
Proof.
  intros Hdt H.
  assert (Hinv := H). unfold to_kb_obj in Hinv.
  bind_inv Hinv. bind_inv Hinv. bind_inv Hinv. bind_inv Hinv. clear Hinv.
  apply kb_getitem_str in E0.
  change (document_types (action_knowledge_base repr_str))
    with (action_document_types repr_str) in E0.
  rewrite Hdt in E0. inversion E0; subst x0; clear E0.
  destruct (to_kb_obj_entries_aux (action_knowledge_base repr_str) hit object_type dt
              x x2 x1 o Hdt E E2 E1 H) as (d & -> & Hname & _ & _ & Hvals).
  exists x1. split; [simpl; now rewrite Hname|].
  unfold action_document_types in Hdt. cbn [assoc] in Hdt.
  destruct (String.eqb "book" object_type);
    [|destruct (String.eqb "movie" object_type);
      [|destruct (String.eqb "rating" object_type); [|discriminate]]];
    injection Hdt as <-; simpl in E1;
    unfold title_from_year in E1; simpl in E1 |- *; unfold title_from_year;
    bind_inv E1; bind_inv E1; injection E1 as <-;
    destruct (py_getitem_dict_inv _ _ _ E0) as (fields & -> & Hfirst);
    destruct (py_getitem_dict_inv _ _ _ E3) as (fields' & Heq & Hsecond);
    inversion Heq; subst fields'; clear Heq.
  - destruct (Hvals ltac:(simpl; nodup_strings) "title" (TextAttribute "title"))
      as (v1 & Hf1 & Hg1); [simpl; auto | discriminate | discriminate |].
    destruct (Hvals ltac:(simpl; nodup_strings) "publication_year"
                (RangeAttribute "publication_year"))
      as (v2 & Hf2 & Hg2); [simpl; auto | discriminate | discriminate |].
    rewrite (get_field_present (TextAttribute "title") fields x0 Hfirst) in Hf1.
    rewrite (get_field_present (RangeAttribute "publication_year") fields x3 Hsecond) in Hf2.
    inversion Hf1; inversion Hf2; subst.
    simpl. rewrite Hg1. simpl. rewrite Hg2. reflexivity.
  - destruct (Hvals ltac:(simpl; nodup_strings) "title" (TextAttribute "title"))
      as (v1 & Hf1 & Hg1); [simpl; auto | discriminate | discriminate |].
    destruct (Hvals ltac:(simpl; nodup_strings) "publication_year"
                (RangeAttribute "publication_year"))
      as (v2 & Hf2 & Hg2); [simpl; auto | discriminate | discriminate |].
    rewrite (get_field_present (TextAttribute "title") fields x0 Hfirst) in Hf1.
    rewrite (get_field_present (RangeAttribute "publication_year") fields x3 Hsecond) in Hf2.
    inversion Hf1; inversion Hf2; subst.
    simpl. rewrite Hg1. simpl. rewrite Hg2. reflexivity.
  - destruct (Hvals ltac:(simpl; nodup_strings) "mean_rating"
                (DefaultAttribute "mean_rating"))
      as (v1 & Hf1 & Hg1); [simpl; auto | discriminate | discriminate |].
    destruct (Hvals ltac:(simpl; nodup_strings) "total_votes"
                (DefaultAttribute "total_votes"))
      as (v2 & Hf2 & Hg2); [simpl; auto | discriminate | discriminate |].
    rewrite (get_field_present (DefaultAttribute "mean_rating") fields x0 Hfirst) in Hf1.
    rewrite (get_field_present (DefaultAttribute "total_votes") fields x3 Hsecond) in Hf2.
    inversion Hf1; inversion Hf2; subst.
    simpl. rewrite Hg1. simpl. rewrite Hg2. reflexivity.
Qed.

(** X7. For the three document types of the action, a normalized
    object renders to its own [name]: the text the join response shows
    for an object is the text the listing showed for it. *)
Theorem normalized_object_renders_as_its_name
    (repr_str : string -> string) (hit : pyval) (object_type : string)
    (dt : DocumentType) (o : pyval) :
  assoc object_type (action_document_types repr_str) = Some dt ->
  to_kb_obj (action_knowledge_base repr_str) hit (PStr object_type) = OK o ->
  exists name, py_getitem o "name" = OK (PStr name) /\ to_string dt o = OK name.
Proof. apply rendering_of_normalized. Qed.

Lemma normalized_object_renders_as_its_name_witness :
  exists name,
    py_getitem (obj_of [("title", PStr "The Matrix");
                        ("publication_year", PInt 1999);
                        ("genres", PList [PStr "Action"; PStr "Sci-Fi"]);
                        ("summary", PNone);
                        ("actors", PNone);
                        ("director", PStr "Lana Wachowski");
                        ("name", PStr "The Matrix from 1999");
                        ("id", PStr "tt0133093")]) "name" = OK (PStr name)
    /\ to_string (MovieDocumentType quote_repr "movie")
         (obj_of [("title", PStr "The Matrix");
                  ("publication_year", PInt 1999);
                  ("genres", PList [PStr "Action"; PStr "Sci-Fi"]);
                  ("summary", PNone);
                  ("actors", PNone);
                  ("director", PStr "Lana Wachowski");
                  ("name", PStr "The Matrix from 1999");
                  ("id", PStr "tt0133093")]) = OK name.
Proof.
  apply (normalized_object_renders_as_its_name quote_repr matrix_movie "movie"
           (MovieDocumentType quote_repr "movie") _ eq_refl eq_refl).
Defined.

(** ** Filters read from the tracker *)

Lemma get_attribute_slots_cons (tracker : Tracker) (attr : string) (rest : list string) :
  get_attribute_slots tracker (attr :: rest)
  = if is_not_None (slot_value tracker attr) then
      (entities <- latest_entities tracker ;;
       role <- entity_roles attr (slot_value tracker attr) entities ;;
       attributes <- get_attribute_slots tracker rest ;;
       OK (attribute_filter attr (slot_value tracker attr)
             (match role with r :: _ => r | [] => PNone end) :: attributes))
    else get_attribute_slots tracker rest.
Proof. reflexivity. Qed.

Lemma filters_and_resets_cover_set_attributes_aux
    (tracker : Tracker) (attrs : list string) (filters : list pyval) :
  get_attribute_slots tracker attrs = OK filters ->
  Forall2 (fun attr f =>
             exists role, f = attribute_filter attr (slot_value tracker attr) role)
    (set_attributes tracker attrs) filters.
Proof.
  revert filters. induction attrs as [|attr rest IH]; intros filters H.
  - simpl in H. inversion H. constructor.
  - rewrite get_attribute_slots_cons in H.
    unfold set_attributes. cbn [filter].
    fold (slot_value tracker attr). fold (set_attributes tracker rest).
    destruct (is_not_None (slot_value tracker attr)) eqn:Hset.
    + bind_inv H. bind_inv H. bind_inv H. inversion H; subst filters.
      constructor; [eauto | now apply IH].
    + apply IH. assumption.
Qed.

Lemma reset_attribute_slots_set_attributes (tracker : Tracker) (attrs : list string) :
  reset_attribute_slots tracker attrs
  = map (fun attr => SlotSet attr PNone) (set_attributes tracker attrs).
Proof.
  induction attrs as [|attr rest IH]; [reflexivity|].
  unfold set_attributes. cbn [filter reset_attribute_slots].
  fold (slot_value tracker attr). fold (set_attributes tracker rest).
  destruct (is_not_None (slot_value tracker attr)); simpl; now rewrite IH.
Qed.




(** X9. When no declared attribute has a value in its slot, there is
    no filter and nothing to reset, and the entities of the latest
    message are not even read: the result does not depend on them. *)
Theorem no_set_slot_no_filter (tracker : Tracker) (attrs : list string) :
  (forall attr, In attr attrs -> slot_value tracker attr = PNone) ->
  get_attribute_slots tracker attrs = OK []
  /\ reset_attribute_slots tracker attrs = [].
Proof.
  induction attrs as [|attr rest IH]; intros H; [split; reflexivity|].
  rewrite get_attribute_slots_cons. cbn [reset_attribute_slots].
  fold (slot_value tracker attr).
  rewrite (H attr (or_introl eq_refl)). simpl. apply IH.
  intros a Ha. apply H. now right.
Qed.

Lemma no_set_slot_no_filter_witness :
  get_attribute_slots
    {| slots := slots list_movies; latest_message := [(PStr "entities", PInt 7)] |}
    ["title"; "publication_year"] = OK []
  /\ reset_attribute_slots
       {| slots := slots list_movies; latest_message := [(PStr "entities", PInt 7)] |}
       ["title"; "publication_year"] = [].
Proof.
  apply (no_set_slot_no_filter
           {| slots := slots list_movies; latest_message := [(PStr "entities", PInt 7)] |}
           ["title"; "publication_year"]).
  intros attr [<- | [<- | []]]; reflexivity.
Defined.

Lemma entity_role_total (attr : string) (value e : pyval) :
  well_formed_entity e = true -> exists r, entity_role attr value e = OK r.
Proof.
  destruct e; simpl; try discriminate. intros H.
  apply andb_true_iff in H. destruct H as [Hentity Hvalue].
  unfold entity_role, dict_mem in *. simpl.
  destruct (dict_get d (PStr "entity")); [|discriminate]. simpl.
  destruct (py_eqb p (PStr attr)); [|eauto].
  destruct (dict_get d (PStr "value")); [|discriminate]. simpl.
  destruct (py_eqb p0 value); [|eauto].
  unfold dict_mem.
  destruct (dict_get d (PStr "role")); simpl; eauto.
Qed.

Lemma entity_roles_total (attr : string) (value : pyval) (entities : list pyval) :
  forallb well_formed_entity entities = true ->
  exists roles, entity_roles attr value entities = OK roles.
Proof.
  induction entities as [|e entities IH]; simpl; intros H; [eauto|].
  apply andb_true_iff in H. destruct H as [He Hrest].
  destruct (entity_role_total attr value e He) as [r Hr]. rewrite Hr. simpl.
  destruct (IH Hrest) as [roles Hroles]. rewrite Hroles. simpl. eauto.
Qed.

(** X10. Reading the filters cannot fail on a message whose entities
    are a list of dictionaries that each have the keys [entity] and
    [value]; the key [role] is optional. *)
Theorem get_attribute_slots_total
    (tracker : Tracker) (attrs : list string) (entities : list pyval) :
  latest_entities tracker = OK entities ->
  forallb well_formed_entity entities = true ->
  exists filters, get_attribute_slots tracker attrs = OK filters.
Proof.
  intros Hent Hwf. induction attrs as [|attr rest IH]; [simpl; eauto|].
  rewrite get_attribute_slots_cons. destruct IH as [filters Hfilters].
  destruct (is_not_None (slot_value tracker attr)); [|eauto].
  rewrite Hent. simpl.
  destruct (entity_roles_total attr (slot_value tracker attr) entities Hwf)
    as [roles Hroles].
  rewrite Hroles. simpl. rewrite Hfilters. simpl. eauto.
Qed.

Lemma get_attribute_slots_total_witness :
  exists filters,
    get_attribute_slots movies_of_1999
      ["title"; "publication_year"; "genres"; "summary"; "actors"; "director"]
    = OK filters.
Proof.
  apply (get_attribute_slots_total movies_of_1999
           ["title"; "publication_year"; "genres"; "summary"; "actors"; "director"]
           [obj_of [("entity", PStr "publication_year"); ("value", PStr "1999")]]);
    reflexivity.
Defined.




Lemma assoc_In {A} (k : string) (l : list (string * A)) :
  In k (map fst l) -> exists a, assoc k l = Some a.
Proof.
  induction l as [|[k' a] l IH]; simpl; [contradiction|].
  intros H. destruct (String.eqb k' k) eqn:E; [eauto|].
  destruct H as [-> | H]; [|auto].
  now rewrite String.eqb_refl in E.
Qed.

Lemma set_attributes_incl (tracker : Tracker) (attrs : list string) (a : string) :
  In a (set_attributes tracker attrs) -> In a attrs.
Proof. unfold set_attributes. intros H. apply filter_In in H. tauto. Qed.

Lemma generate_query_hashable (strategy : Attribute) (value role : pyval) :
  py_hashable role = true -> exists q, generate_query strategy value role = OK q.
Proof.
  intros H. destruct strategy; simpl; eauto.
  destruct (py_eqb role (PStr "eq")); [eauto|].
  unfold generate_range_query. rewrite H. eauto.
Qed.

(** X12. The filters read from the tracker for the attributes of a
    document type always turn into query fragments, one per filter:
    the lookup of the strategy cannot miss, and the only failure left
    is a role that cannot be a dictionary key. *)
Theorem tracker_filters_build_queries
    (dt : DocumentType) (tracker : Tracker) (filters : list pyval) :
  get_attribute_slots tracker (map fst (attributes dt)) = OK filters ->
  (forall f role, In f filters -> py_get f "role" = OK role -> py_hashable role = true) ->
  exists queries,
    mapR (filter_query dt) filters = OK queries
    /\ List.length queries = List.length filters.
Proof.
  intros Hfilters Hroles.
  assert (Hall := filters_and_resets_cover_set_attributes_aux tracker
                    (map fst (attributes dt)) filters Hfilters).
  assert (Hin : forall a, In a (set_attributes tracker (map fst (attributes dt))) ->
                          In a (map fst (attributes dt)))
    by apply set_attributes_incl.
  clear Hfilters. revert Hin Hroles.
  induction Hall as [|a f names fs [role ->] Hrest IH]; intros Hin Hroles.
  - exists []. split; reflexivity.
  - destruct (assoc_In a (attributes dt) (Hin a (or_introl eq_refl))) as [strategy Hs].
    assert (Hh : py_hashable role = true).
    { apply (Hroles (attribute_filter a (slot_value tracker a) role)); [now left|].
      reflexivity. }
    destruct (generate_query_hashable strategy (slot_value tracker a) role Hh) as [q Hq].
    assert (Hin' : forall a', In a' names -> In a' (map fst (attributes dt)))
      by (intros a' Ha'; apply Hin; now right).
    assert (Hroles' : forall f' r', In f' fs -> py_get f' "role" = OK r' ->
                                    py_hashable r' = true)
      by (intros f' r' Hf'; apply Hroles; now right).
    destruct (IH Hin' Hroles') as [queries [Hqueries Hlen]].
    exists (q :: queries). split; [|simpl; now rewrite Hlen].
    cbn [mapR]. unfold filter_query at 1. unfold attribute_filter at 1. simpl.
    rewrite Hs. simpl. rewrite Hq. simpl.
    rewrite Hqueries. reflexivity.
Qed.

Lemma tracker_filters_build_queries_witness :
  exists queries,
    mapR (filter_query (MovieDocumentType quote_repr "movie"))
      [attribute_filter "publication_year" (PStr "1999") PNone] = OK queries
    /\ List.length queries = 1%nat.
Proof.
  apply (tracker_filters_build_queries (MovieDocumentType quote_repr "movie")
           movies_of_1999 [attribute_filter "publication_year" (PStr "1999") PNone]).
  - reflexivity.
  - intros f role [<- | []] H. simpl in H. inversion H. reflexivity.
Defined.

(** ** Turns *)

Section Turns.

Variable repr_str : string -> string.
Variable int_of_str : string -> option Z.
Variable kb : KnowledgeBase.
Variable get_object_name : Tracker -> result pyval.
Variable _query_attribute : pyval -> pyval -> Tracker -> M (list Event).

Lemma _query_objects_after_query
    (es : Elasticsearch) (object_type : pyval) (tracker : Tracker)
    (attrs : list string) (filters : list pyval) (limit : Z) (d : Dispatcher) :
  get_attributes_of_object kb object_type = OK attrs ->
  get_attribute_slots tracker attrs = OK filters ->
  limit_argument int_of_str tracker = OK limit ->
  _query_objects repr_str int_of_str kb es object_type tracker d
  = match get_objects kb es object_type filters limit with
    | OK objs => after_query repr_str kb object_type tracker attrs filters objs d
    | Raise e => (d, Raise e)
    end.
Proof.
  intros Hattrs Hfilters Hlimit. unfold _query_objects.
  unfold bind at 1. unfold lift at 1. rewrite Hattrs.
  unfold bind at 1. unfold lift at 1. rewrite Hfilters.
  unfold bind at 1. unfold lift at 1. rewrite Hlimit.
  unfold bind at 1. unfold lift at 1.
  destruct (get_objects kb es object_type filters limit); reflexivity.
Qed.

(** X13. A turn without a current object type asks to rephrase and
    changes no slot, whatever the other slots hold; neither the store
    nor the mention resolution takes part. *)
Theorem run_without_object_type
    (es : Elasticsearch) (tracker : Tracker) (d : Dispatcher) :
  object_type_set tracker = false ->
  run repr_str int_of_str kb es get_object_name _query_attribute tracker d
  = ((d ++ [utter_template "utter_ask_rephrase"])%list, OK []).
Proof.
  intros H. unfold run. rewrite run_with_select_mode, select_mode_cases, H.
  reflexivity.
Qed.

(** X14. A listing turn over a type that is not registered tells the
    user that nothing was found and returns an empty state delta; the
    store is not consulted, so this also holds when it is down. *)
Theorem listing_unknown_type
    (es : Elasticsearch) (object_type : string) (tracker : Tracker)
    (limit : Z) (d : Dispatcher) :
  assoc object_type (document_types kb) = None ->
  limit_argument int_of_str tracker = OK limit ->
  _query_objects repr_str int_of_str kb es (PStr object_type) tracker d
  = ((d ++ [utter_text ("I could not find any " ++ object_type ++ "s .")])%list,
     OK []).
Proof.
  intros Hnone Hlimit. unfold _query_objects.
  destruct (unknown_type_is_empty_aux kb es object_type [] limit Hnone) as [Ha Ho].
  unfold bind at 1. unfold lift at 1. rewrite Ha.
  unfold bind at 1. unfold lift at 1. cbn [get_attribute_slots].
  unfold bind at 1. unfold lift at 1. rewrite Hlimit.
  unfold bind at 1. unfold lift at 1. rewrite Ho.
  reflexivity.
Qed.

(** X15. A listing turn over a registered type consults the store
    through one call only, the search on the index of the type with the
    body [{"size": limit, "query": {"bool": {"must": fragments}}}]: two
    stores that answer this call alike give the same turn.  The size is
    5 when the limit slot is unset, empty or zero, and the number in the
    slot, or the number its text denotes, otherwise. *)
Theorem listing_consults_store_once
    (es1 es2 : Elasticsearch) (object_type : string) (dt : DocumentType)
    (tracker : Tracker) (filters queries : list pyval) (limit : Z) (d : Dispatcher) :
  assoc object_type (document_types kb) = Some dt ->
  get_attribute_slots tracker (map fst (attributes dt)) = OK filters ->
  limit_argument int_of_str tracker = OK limit ->
  mapR (filter_query dt) filters = OK queries ->
  es_search es1 (index dt)
    (PDict [(PStr "size", PInt limit);
            (PStr "query", PDict [(PStr "bool", PDict [(PStr "must", PList queries)])])])
  = es_search es2 (index dt)
      (PDict [(PStr "size", PInt limit);
              (PStr "query", PDict [(PStr "bool", PDict [(PStr "must", PList queries)])])]) ->
  _query_objects repr_str int_of_str kb es1 (PStr object_type) tracker d
  = _query_objects repr_str int_of_str kb es2 (PStr object_type) tracker d
  /\ (py_truthy (get_slot tracker SLOT_LIMIT) = false -> limit = 5)
  /\ (forall n, get_slot tracker "limit" = PInt n -> n <> 0 -> limit = n)
  /\ (forall text, get_slot tracker "limit" = PStr text -> text <> EmptyString ->
        int_of_str text = Some limit).
Proof.
  intros Hdt Hfilters Hlimit Hqueries Hsame. split; [|split; [|split]].
  - assert (Hget : get_objects kb es1 (PStr object_type) filters limit
                   = get_objects kb es2 (PStr object_type) filters limit).
    { rewrite !(get_objects_known kb _ object_type dt filters limit Hdt), Hqueries.
      cbn [rbind]. unfold search_body. now rewrite Hsame. }
    assert (Hattrs : get_attributes_of_object kb (PStr object_type)
                     = OK (map fst (attributes dt))).
    { unfold get_attributes_of_object. simpl. now rewrite Hdt. }
    rewrite !(_query_objects_after_query _ (PStr object_type) tracker
                (map fst (attributes dt)) filters limit d Hattrs Hfilters Hlimit).
    now rewrite Hget.
  - intros Hfalsy. unfold limit_argument in Hlimit. rewrite Hfalsy in Hlimit.
    now inversion Hlimit.
  - intros n Hn Hne. unfold limit_argument in Hlimit.
    change SLOT_LIMIT with "limit" in Hlimit. rewrite Hn in Hlimit.
    cbn [py_truthy py_int] in Hlimit. apply Z.eqb_neq in Hne. rewrite Hne in Hlimit.
    now inversion Hlimit.
  - intros text Htext Hne. unfold limit_argument in Hlimit.
    change SLOT_LIMIT with "limit" in Hlimit. rewrite Htext in Hlimit.
    cbn [py_truthy py_int] in Hlimit. apply String.eqb_neq in Hne.
    rewrite Hne in Hlimit. cbn [negb] in Hlimit.
    destruct (int_of_str text); inversion Hlimit. reflexivity.
Qed.

(** X16. A limit slot holding a text that [int] rejects makes the
    listing turn raise [ValueError] before the store is queried and
    before anything is said. *)
Theorem listing_rejects_unparsable_limit
    (es : Elasticsearch) (object_type : pyval) (tracker : Tracker)
    (attrs : list string) (filters : list pyval) (text : string) (d : Dispatcher) :
  get_attributes_of_object kb object_type = OK attrs ->
  get_attribute_slots tracker attrs = OK filters ->
  get_slot tracker SLOT_LIMIT = PStr text ->
  text <> EmptyString ->
  int_of_str text = None ->
  _query_objects repr_str int_of_str kb es object_type tracker d
  = (d, Raise (ValueError "invalid literal for int() with base 10")).
Proof.
  intros Hattrs Hfilters Hslot Hne Hint. unfold _query_objects.
  unfold bind at 1. unfold lift at 1. rewrite Hattrs.
  unfold bind at 1. unfold lift at 1. rewrite Hfilters.
  unfold bind at 1. unfold lift at 1.
  unfold limit_argument. rewrite Hslot. simpl.
  apply String.eqb_neq in Hne. rewrite Hne. simpl. rewrite Hint. reflexivity.
Qed.

(** X17. A filter whose slot value is not a string breaks the
    listing turn: the store is queried, but composing the text of the
    filters raises [TypeError], nothing is said and no state delta is
    returned. *)
Theorem listing_rejects_non_string_filter
    (es : Elasticsearch) (object_type : pyval) (tracker : Tracker)
    (attrs : list string) (attr : string) (value role : pyval)
    (rest objs : list pyval) (limit : Z) (d : Dispatcher) :
  get_attributes_of_object kb object_type = OK attrs ->
  get_attribute_slots tracker attrs = OK (attribute_filter attr value role :: rest) ->
  is_str value = false ->
  limit_argument int_of_str tracker = OK limit ->
  get_objects kb es object_type (attribute_filter attr value role :: rest) limit
  = OK objs ->
  _query_objects repr_str int_of_str kb es object_type tracker d
  = (d, Raise (TypeError "can only concatenate str to str")).
Proof.
  intros Hattrs Hfilters Hvalue Hlimit Hobjs. unfold _query_objects.
  unfold bind at 1. unfold lift at 1. rewrite Hattrs.
  unfold bind at 1. unfold lift at 1. rewrite Hfilters.
  unfold bind at 1. unfold lift at 1. rewrite Hlimit.
  unfold bind at 1. unfold lift at 1. rewrite Hobjs.
  unfold bind at 1. unfold utter_objects. unfold bind at 1. unfold lift at 1.
  unfold attributes_repr. cbn [mapR]. unfold filter_repr at 1.
  unfold attribute_filter at 1. simpl.
  destruct value; simpl in *; try discriminate; reflexivity.
Qed.

End Turns.

Lemma run_without_object_type_witness :
  run quote_repr decimal_literal (action_knowledge_base quote_repr) unavailable_store
    (resolves_to PNone) idle_attribute_handler
    (tracker_of [("object_type", PStr EmptyString); ("mention", PStr "1");
                 ("attribute", PStr "summary")] []) []
  = ([utter_template "utter_ask_rephrase"], OK []).
Proof.
  apply (run_without_object_type quote_repr decimal_literal
           (action_knowledge_base quote_repr) (resolves_to PNone)
           idle_attribute_handler unavailable_store
           (tracker_of [("object_type", PStr EmptyString); ("mention", PStr "1");
                        ("attribute", PStr "summary")] []) []).
  reflexivity.
Defined.

Lemma listing_unknown_type_witness :
  _query_objects quote_repr decimal_literal (action_knowledge_base quote_repr)
    unavailable_store (PStr "restaurant")
    (tracker_of [("object_type", PStr "restaurant")] []) []
  = ([utter_text "I could not find any restaurants ."], OK []).
Proof.
  apply (listing_unknown_type quote_repr decimal_literal
           (action_knowledge_base quote_repr) unavailable_store "restaurant"
           (tracker_of [("object_type", PStr "restaurant")] []) 5 []);
    reflexivity.
Defined.

Lemma listing_consults_store_once_witness :
  _query_objects quote_repr decimal_literal (action_knowledge_base quote_repr)
    one_movie_store (PStr "movie") list_movies []
  = _query_objects quote_repr decimal_literal (action_knowledge_base quote_repr)
      (store_with [matrix_movie] []) (PStr "movie") list_movies [].
Proof.
  apply (proj1 (listing_consults_store_once quote_repr decimal_literal
                  (action_knowledge_base quote_repr) one_movie_store
                  (store_with [matrix_movie] []) "movie"
                  (MovieDocumentType quote_repr "movie") list_movies [] [] 5 []
                  eq_refl eq_refl eq_refl eq_refl eq_refl)).
Defined.

Lemma listing_rejects_unparsable_limit_witness :
  _query_objects quote_repr decimal_literal (action_knowledge_base quote_repr)
    one_movie_store (PStr "movie")
    (tracker_of [("object_type", PStr "movie"); ("limit", PStr "a few")] []) []
  = ([], Raise (ValueError "invalid literal for int() with base 10")).
Proof.
  apply (listing_rejects_unparsable_limit quote_repr decimal_literal
           (action_knowledge_base quote_repr) one_movie_store (PStr "movie")
           (tracker_of [("object_type", PStr "movie"); ("limit", PStr "a few")] [])
           ["title"; "publication_year"; "genres"; "summary"; "actors"; "director"]
           [] "a few" []);
    try reflexivity.
  discriminate.
Defined.

Lemma listing_rejects_non_string_filter_witness :
  _query_objects quote_repr decimal_literal (action_knowledge_base quote_repr)
    one_movie_store (PStr "movie")
    (tracker_of [("object_type", PStr "movie"); ("publication_year", PInt 1999)] []) []
  = ([], Raise (TypeError "can only concatenate str to str")).
Proof.
  apply (listing_rejects_non_string_filter quote_repr decimal_literal
           (action_knowledge_base quote_repr) one_movie_store (PStr "movie")
           (tracker_of [("object_type", PStr "movie");
                        ("publication_year", PInt 1999)] [])
           ["title"; "publication_year"; "genres"; "summary"; "actors"; "director"]
           "publication_year" (PInt 1999) PNone []
           [obj_of [("title", PStr "The Matrix");
                    ("publication_year", PInt 1999);
                    ("genres", PList [PStr "Action"; PStr "Sci-Fi"]);
                    ("summary", PNone);
                    ("actors", PNone);
                    ("director", PStr "Lana Wachowski");
                    ("name", PStr "The Matrix from 1999");
                    ("id", PStr "tt0133093")]]
           5 []);
    reflexivity.
Defined.

Section ListingOutcome.

Variable repr_str : string -> string.
Variable int_of_str : string -> option Z.
Variable dts : list (string * DocumentType).
Variable es : Elasticsearch.

Local Notation "'ekb'" := (ElasticsearchKnowledgeBase dts).

Lemma names_and_ids (ty : string) (objs : list pyval) :
  (forall o, In o objs -> normalized ekb ty o) ->
  exists names ids,
    mapR (fun o => py_getitem o "name") objs = OK names
    /\ mapR (fun o => py_getitem o "id") objs = OK ids.
Proof.
  induction objs as [|o objs IH]; intros H; [exists [], []; split; reflexivity|].
  destruct (normalized_getitem ekb ty o "name" (H o (or_introl eq_refl)))
    as [n Hn]; [auto|].
  destruct (normalized_getitem ekb ty o "id" (H o (or_introl eq_refl)))
    as [k Hk]; [auto|].
  destruct IH as (names & ids & Hnames & Hids); [intros o' Ho'; apply H; now right|].
  exists (n :: names), (k :: ids). cbn [mapR].
  rewrite Hn, Hk, Hnames, Hids. split; reflexivity.
Qed.

(** X18. A listing turn that finds objects says the heading and then
    one line per object, numbered from 1 and showing the object's name,
    and its state delta sets the listed-objects slot to the identifiers
    of the objects in the very order of the lines, so that the n-th line
    and the n-th listed identifier belong to the same object.  The
    delta also sets both type slots to the listed type, the last-object
    slot to the identifier when there is one object and to [None] when
    there are several, clears the mention, attribute and limit slots,
    and then clears the slot of every declared attribute that held a
    value. *)
Theorem listing_enumerates_in_listed_order
    (object_type : string) (tracker : Tracker) (attrs : list string)
    (filters : list pyval) (text : string) (limit : Z) (objs : list pyval)
    (d : Dispatcher) :
  get_attributes_of_object ekb (PStr object_type) = OK attrs ->
  get_attribute_slots tracker attrs = OK filters ->
  attributes_repr filters = OK text ->
  limit_argument int_of_str tracker = OK limit ->
  get_objects ekb es (PStr object_type) filters limit = OK objs ->
  objs <> [] ->
  exists names ids,
    mapR (fun o => py_getitem o "name") objs = OK names
    /\ mapR (fun o => py_getitem o "id") objs = OK ids
    /\ List.length names = List.length objs
    /\ List.length ids = List.length objs
    /\ _query_objects repr_str int_of_str ekb es (PStr object_type) tracker d
       = ((d ++ utter_text ("I found the following " ++ object_type ++ "s "
                              ++ text ++ ":")
             :: map (fun '(i, name) =>
                       utter_text (str_of_Z i ++ ": " ++ py_str repr_str name))
                  (enumerate 1 names))%list,
          OK ([SlotSet "object_type" (PStr object_type);
               SlotSet "mention" PNone;
               SlotSet "attribute" PNone;
               SlotSet "knowledge_base_last_object"
                 (match ids with [key] => key | _ => PNone end);
               SlotSet "knowledge_base_last_object_type" (PStr object_type);
               SlotSet "knowledge_base_listed_objects" (PList ids);
               SlotSet "limit" PNone]
                ++ map (fun attr => SlotSet attr PNone)
                     (filter (fun attr =>
                                is_not_None
                                  (if dict_mem (slots tracker) (PStr attr)
                                   then get_slot tracker attr else PNone))
                        attrs))%list).
Proof.
  intros Hattrs Hfilters Htext Hlimit Hobjs Hne.
  assert (Hnorm : forall o, In o objs -> normalized ekb object_type o).
  { intros o Hin.
    destruct (get_objects_from_hits ekb es object_type filters limit objs o Hobjs Hin)
      as [hit Hhit].
    now apply to_kb_obj_normalized with (hit := hit). }
  destruct (names_and_ids object_type objs Hnorm) as (names & ids & Hnames & Hids).
  exists names, ids. split; [assumption|]. split; [assumption|].
  split; [apply mapR_ok_Forall2 in Hnames; symmetry; eapply Forall2_length; eauto|].
  split; [apply mapR_ok_Forall2 in Hids; symmetry; eapply Forall2_length; eauto|].
  rewrite (_query_objects_after_query repr_str int_of_str ekb es (PStr object_type)
             tracker attrs filters limit d Hattrs Hfilters Hlimit), Hobjs.
  unfold after_query, utter_objects.
  change (key_attribute ekb (PStr object_type)) with "id".
  rewrite (reset_attribute_slots_set_attributes tracker attrs).
  unfold bind at 1. unfold bind at 1. unfold lift at 1. rewrite Htext.
  destruct objs as [|o objs]; [contradiction|].
  unfold bind at 1. unfold utter_message at 1.
  rewrite (enumeration_messages repr_str dts (PStr object_type) (o :: objs) names 1 _
             Hnames).
  unfold bind at 1. unfold lift at 1. rewrite Hids.
  rewrite <- app_assoc. cbn [app].
  destruct objs as [|o' objs].
  - cbn [mapR] in Hids. bind_inv Hids. simpl in Hids. inversion Hids; subst ids.
    unfold bind, lift, ret. rewrite E. reflexivity.
  - cbn [mapR] in Hids. bind_inv Hids. bind_inv Hids.
    inversion Hids; subst ids. bind_inv E0. bind_inv E0. inversion E0; subst.
    reflexivity.
Qed.

End ListingOutcome.

Lemma listing_enumerates_in_listed_order_witness :
  _query_objects quote_repr decimal_literal (action_knowledge_base quote_repr)
    two_movies_store (PStr "movie") list_movies []
  = ([utter_text "I found the following movies :";
      utter_text "1: The Matrix from 1999";
      utter_text "2: Inception from 2010"],
     OK [SlotSet "object_type" (PStr "movie");
         SlotSet "mention" PNone;
         SlotSet "attribute" PNone;
         SlotSet "knowledge_base_last_object" PNone;
         SlotSet "knowledge_base_last_object_type" (PStr "movie");
         SlotSet "knowledge_base_listed_objects"
           (PList [PStr "tt0133093"; PStr "tt1375666"]);
         SlotSet "limit" PNone]).
Proof.
  destruct (listing_enumerates_in_listed_order quote_repr decimal_literal
              (action_document_types quote_repr) two_movies_store
              "movie" list_movies
              ["title"; "publication_year"; "genres"; "summary"; "actors"; "director"]
              [] EmptyString 5 _ [] eq_refl eq_refl eq_refl eq_refl eq_refl)
    as (names & ids & Hnames & Hids & _ & _ & Hrun).
  - discriminate.
  - simpl in Hnames, Hids. inversion Hnames; subst names. inversion Hids; subst ids.
    exact Hrun.
Defined.

(** ** Join turns *)

(** X19. A join turn whose previous object type is not registered
    asks to rephrase and its state delta clears the mention slot and
    nothing else, whatever the current type is and whatever name the
    mention resolves to: the lookup under the previous type returns
    [None] without consulting the store, so this holds for every store,
    also one that is down, and the lookup under the current type is not
    made. *)
Theorem join_unregistered_previous_type_asks_rephrase
    (repr_str : string -> string) (kb : KnowledgeBase) (es : Elasticsearch)
    (get_object_name : Tracker -> result pyval)
    (object_type last_object_type : string) (tracker : Tracker)
    (object_name : pyval) (d : Dispatcher) :
  assoc last_object_type (document_types kb) = None ->
  get_object_name tracker = OK object_name ->
  _query_join_objects repr_str kb es get_object_name
    (PStr object_type) (PStr last_object_type) tracker d
  = ((d ++ [utter_template "utter_ask_rephrase"])%list,
     OK [SlotSet "mention" PNone]).
Proof.
  intros Hnone Hname.
  assert (Hattrs : exists attrs,
             get_attributes_of_object kb (PStr object_type) = OK attrs).
  { unfold get_attributes_of_object. cbn [kb_contains kb_getitem rbind].
    destruct (assoc object_type (document_types kb)); cbn [negb rbind]; eauto. }
  destruct Hattrs as [attrs Hattrs].
  assert (Hlast : get_object kb es (PStr last_object_type) object_name = OK PNone).
  { unfold get_object. cbn [kb_contains rbind]. now rewrite Hnone. }
  apply (join_unresolved_clears_mention repr_str kb es get_object_name
           (PStr object_type) (PStr last_object_type) tracker attrs object_name PNone d
           Hattrs Hname Hlast).
  right. reflexivity.
Qed.

Lemma join_unregistered_previous_type_asks_rephrase_witness :
  _query_join_objects quote_repr (action_knowledge_base quote_repr)
    unavailable_store (resolves_to (PStr "tt0133093"))
    (PStr "rating") (PStr "soundtrack")
    (tracker_of [("object_type", PStr "rating");
                 ("knowledge_base_last_object_type", PStr "soundtrack");
                 ("mention", PStr "1")] []) []
  = ([utter_template "utter_ask_rephrase"], OK [SlotSet "mention" PNone]).
Proof.
  apply (join_unregistered_previous_type_asks_rephrase quote_repr
           (action_knowledge_base quote_repr) unavailable_store
           (resolves_to (PStr "tt0133093")) "rating" "soundtrack"
           (tracker_of [("object_type", PStr "rating");
                        ("knowledge_base_last_object_type", PStr "soundtrack");
                        ("mention", PStr "1")] [])
           (PStr "tt0133093") []);
    reflexivity.
Defined.

(** X20. A join turn whose current object type is not registered
    raises [KeyError] on that type once the previous object has been
    found: nothing is said and no state delta is returned. *)
Theorem join_unregistered_type_raises
    (repr_str : string -> string) (kb : KnowledgeBase) (es : Elasticsearch)
    (get_object_name : Tracker -> result pyval)
    (object_type last_object_type : string) (tracker : Tracker)
    (object_name last_object : pyval) (d : Dispatcher) :
  assoc object_type (document_types kb) = None ->
  object_type <> EmptyString ->
  get_object_name tracker = OK object_name ->
  py_truthy object_name = true ->
  get_object kb es (PStr last_object_type) object_name = OK last_object ->
  py_truthy last_object = true ->
  _query_join_objects repr_str kb es get_object_name
    (PStr object_type) (PStr last_object_type) tracker d
  = (d, Raise (KeyError (PStr object_type))).
Proof.
  intros Hnone Hne Hname Hname_set Hlast Hlast_set. unfold _query_join_objects.
  unfold bind at 1. unfold lift at 1.
  unfold get_attributes_of_object. cbn [kb_contains]. rewrite Hnone. cbn [rbind negb].
  unfold bind at 1. unfold lift at 1. rewrite Hname.
  unfold bind at 1. unfold lift at 1. rewrite Hlast.
  rewrite Hname_set, Hlast_set. cbn [py_truthy].
  apply String.eqb_neq in Hne. rewrite Hne. cbn [negb orb].
  unfold bind at 1. unfold lift at 1.
  unfold get_object at 1. cbn [kb_contains]. rewrite Hnone. cbn [rbind negb].
  unfold bind at 1. unfold lift at 1. cbn [kb_getitem]. rewrite Hnone. reflexivity.
Qed.

Lemma join_unregistered_type_raises_witness :
  _query_join_objects quote_repr (action_knowledge_base quote_repr)
    one_movie_store (resolves_to (PStr "tt0133093"))
    (PStr "soundtrack") (PStr "movie")
    (tracker_of [("object_type", PStr "soundtrack");
                 ("knowledge_base_last_object_type", PStr "movie");
                 ("mention", PStr "1")] []) []
  = ([], Raise (KeyError (PStr "soundtrack"))).
Proof.
  apply (join_unregistered_type_raises quote_repr (action_knowledge_base quote_repr)
           one_movie_store (resolves_to (PStr "tt0133093")) "soundtrack" "movie"
           (tracker_of [("object_type", PStr "soundtrack");
                        ("knowledge_base_last_object_type", PStr "movie");
                        ("mention", PStr "1")] [])
           (PStr "tt0133093")
           (obj_of [("title", PStr "The Matrix");
                    ("publication_year", PInt 1999);
                    ("genres", PList [PStr "Action"; PStr "Sci-Fi"]);
                    ("summary", PNone);
                    ("actors", PNone);
                    ("director", PStr "Lana Wachowski");
                    ("name", PStr "The Matrix from 1999");
                    ("id", PStr "tt0133093")]) []);
    try reflexivity.
  discriminate.
Defined.




(** ** Query fragments *)

(** X22. Every fragment a strategy builds is a dictionary with one
    kind, [match], [match_phrase] or [range], over the field the
    strategy is bound to; no strategy builds a [fuzzy] fragment.
    Building a fragment fails only for a range strategy given a role
    that cannot be a dictionary key. *)
Theorem generate_query_fragment_shape
    (strategy : Attribute) (value role : pyval) :
  (forall q, generate_query strategy value role = OK q ->
     exists kind inner,
       q = PDict [(PStr kind, PDict [(PStr (_name strategy), inner)])]
       /\ (kind = "match" \/ kind = "match_phrase" \/ kind = "range")
       /\ q <> generate_term_query (_name strategy) value)
  /\ (forall e, generate_query strategy value role = Raise e ->
        exists name, strategy = RangeAttribute name /\ py_hashable role = false).
Proof.
  split.
  - intros q H. destruct strategy; simpl in H.
    + inversion H; subst. eexists _, _. split; [reflexivity|]. split; [auto|discriminate].
    + inversion H; subst. eexists _, _. split; [reflexivity|]. split; [auto|discriminate].
    + destruct (py_eqb role (PStr "eq")).
      * inversion H; subst. eexists _, _. split; [reflexivity|].
        split; [auto|discriminate].
      * unfold generate_range_query in H. destruct (py_hashable role); [|discriminate].
        inversion H; subst. eexists _, _. split; [reflexivity|].
        split; [auto|discriminate].
  - intros e H. destruct strategy; simpl in H; try discriminate.
    destruct (py_eqb role (PStr "eq")); [discriminate|].
    unfold generate_range_query in H. destruct (py_hashable role) eqn:Hh; [discriminate|].
    eauto.
Qed.

Lemma generate_query_fragment_shape_witness :
  (exists kind inner,
     generate_match_phrase_query "title" (PStr "Dune")
     = PDict [(PStr kind, PDict [(PStr "title", inner)])])
  /\ exists name,
       RangeAttribute "publication_year" = RangeAttribute name
       /\ py_hashable (PList [PStr "gt"]) = false.
Proof.
  split.
  - destruct (proj1 (generate_query_fragment_shape (TextAttribute "title")
                       (PStr "Dune") (PStr "gt"))
                (generate_match_phrase_query "title" (PStr "Dune")) eq_refl)
      as (kind & inner & Hq & _).
    exists kind, inner. exact Hq.
  - apply (proj2 (generate_query_fragment_shape (RangeAttribute "publication_year")
                    (PStr "1999") (PList [PStr "gt"]))
             (TypeError "unhashable type")).
    reflexivity.
Defined.
